(** * CustomSession: a session wrapper with retries, timeout, headers and delay

    Shallow embedding of [src/CustomSession.py] (the live class, lines
    96-182; lines 1-87 are an earlier version kept inside a string literal).

    The wrapper is a thin layer over the [requests] library, so the file has
    three layers:
    - [Py]: the few Python notions the wrapper relies on (exception classes
      and [isinstance], JSON values, [str.lower], [str.startswith],
      dictionaries);
    - [Lib]: the parts of [requests] / [urllib3] that decide what a call of
      the wrapper does (preparation of the request, adapter mounting and
      selection, the retry loop of [urlopen], the [Retry] counters and
      back-off, the following of redirects, the cookie jar, the translation
      of transport errors, [Response.json]);
    - [CustomSession]: the class itself, method by method.

    Effects are explicit: a computation returns the list of observable events
    it produced ([time.sleep], a transmission on the wire, [print]) together
    with either a value or a raised exception; methods additionally thread the
    object [self].  What the program cannot decide by itself (the network, the
    output stream, the parsing of URLs, dates, cookies and JSON texts) is a
    parameter. *)

From Stdlib Require Import ZArith String Ascii List Lia Bool.
From stdpp Require Import base option strings list.

#[local] Set Warnings "-register-all".
Local Open Scope string_scope.
Local Open Scope list_scope.
Local Open Scope Z_scope.

(** A Python [dict] with string keys and string values (headers, query
    parameters): its items in insertion order.  The keys of a [dict] are
    pairwise different. *)
Abbreviation dict := (list (string * string)).

(* ===================================================================== *)
(** ** Python notions *)
(* ===================================================================== *)
Module Py.

(** Values produced by [json.loads]. *)
Inductive json : Type :=
| JNull
| JBool (b : bool)
| JInt (n : Z)
| JFloat (literal : string)
| JStr (s : string)
| JArr (items : list json)
| JObj (members : list (string * json)).

(** The literal [{}] returned by the two [except] branches. *)
Definition empty_dict : json := JObj [].

(** Exception classes that occur in a call of the wrapper, with the classes
    they derive from.  [requests.exceptions.JSONDecodeError] derives from
    [json.JSONDecodeError], which is the case when [simplejson] is not
    installed. *)
Inductive pyclass : Type :=
| BaseException
| KeyboardInterrupt
| Exception
| ValueError
| OSError
| JSONDecodeError            (* json.JSONDecodeError *)
| RequestException
| InvalidJSONError
| RequestsJSONDecodeError    (* requests.exceptions.JSONDecodeError *)
| InvalidSchema
| ConnectionError
| Timeout
| ConnectTimeout
| ReadTimeout
| RetryError
| Urllib3HTTPError
| RuntimeError
| RecursionError
| MemoryError
| UnicodeError
| UnicodeEncodeError
| UnicodeDecodeError
| BrokenPipeError
| MissingSchema
| InvalidURL
| InvalidHeader
| TooManyRedirects
| ChunkedEncodingError
| ContentDecodingError
| ProxyError
| SSLError.

#[global] Instance pyclass_eq_dec : EqDecision pyclass.
Proof. solve_decision. Defined.

Definition bases (c : pyclass) : list pyclass :=
  match c with
  | BaseException => []
  | KeyboardInterrupt => [BaseException]
  | Exception => [BaseException]
  | ValueError => [Exception]
  | OSError => [Exception]
  | JSONDecodeError => [ValueError]
  | RequestException => [OSError]
  | InvalidJSONError => [RequestException]
  | RequestsJSONDecodeError => [InvalidJSONError; JSONDecodeError]
  | InvalidSchema => [RequestException; ValueError]
  | ConnectionError => [RequestException]
  | Timeout => [RequestException]
  | ConnectTimeout => [ConnectionError; Timeout]
  | ReadTimeout => [Timeout]
  | RetryError => [RequestException]
  | Urllib3HTTPError => [Exception]
  | RuntimeError => [Exception]
  | RecursionError => [RuntimeError]
  | MemoryError => [Exception]
  | UnicodeError => [ValueError]
  | UnicodeEncodeError => [UnicodeError]
  | UnicodeDecodeError => [UnicodeError]
  | BrokenPipeError => [OSError]
  | MissingSchema => [RequestException; ValueError]
  | InvalidURL => [RequestException; ValueError]
  | InvalidHeader => [RequestException; ValueError]
  | TooManyRedirects => [RequestException]
  | ChunkedEncodingError => [RequestException]
  | ContentDecodingError => [RequestException; Urllib3HTTPError]
  | ProxyError => [ConnectionError]
  | SSLError => [ConnectionError]
  end.

(** [issubclass c d]: [c] is [d] or derives from it.  The hierarchy above has
    depth 6, which bounds the search. *)
Fixpoint issubclass_upto (depth : nat) (c d : pyclass) : bool :=
  if decide (c = d) then true
  else match depth with
       | O => false
       | S depth' => existsb (fun b => issubclass_upto depth' b d) (bases c)
       end.

Definition issubclass : pyclass -> pyclass -> bool := issubclass_upto 6.

(** [str.lower] on the ASCII range, which is what decides whether a URL starts
    with an (ASCII) mount prefix and whether two header names are the same. *)
Definition ascii_lower (c : ascii) : ascii :=
  let n := nat_of_ascii c in
  if ((65 <=? n) && (n <=? 90))%nat then ascii_of_nat (n + 32) else c.

Fixpoint lower (s : string) : string :=
  match s with
  | EmptyString => EmptyString
  | String c s' => String (ascii_lower c) (lower s')
  end.

(** [s.startswith(p)] *)
Definition startswith (s p : string) : bool := String.prefix p s.

(** [bool(s)] for a string: the empty string is falsy. *)
Definition nonempty (s : string) : bool :=
  match s with EmptyString => false | String _ _ => true end.

(** *** [requests.structures.CaseInsensitiveDict]

    The items in order, each under the spelling it was last set with; no two
    names of one dictionary are equal up to case. *)

Definition same_name (a b : string) : bool := bool_decide (lower a = lower b).

(** [d.get(name)] *)
Fixpoint ci_get (name : string) (d : dict) : option string :=
  match d with
  | [] => None
  | (k, v) :: d' => if same_name k name then Some v else ci_get name d'
  end.

(** [d[name] = value]: an existing name keeps its place and takes the new
    spelling and value; a new name goes last. *)
Fixpoint ci_set (name value : string) (d : dict) : dict :=
  match d with
  | [] => [(name, value)]
  | (k, v) :: d' =>
      if same_name k name then (name, value) :: d'
      else (k, v) :: ci_set name value d'
  end.

(** [d.pop(name, None)] *)
Definition ci_pop (name : string) (d : dict) : dict :=
  List.filter (fun kv => negb (same_name kv.1 name)) d.

(** [d.update(other)]: the items of [other] are set one after the other. *)
Definition ci_update (d : dict) (other : dict) : dict :=
  fold_left (fun acc kv => ci_set kv.1 kv.2 acc) other d.

End Py.
Export Py.

(* ===================================================================== *)
(** ** Effects *)
(* ===================================================================== *)

(** A request as it is handed to the transport adapter: the prepared URL
    (query parameters included), the prepared headers, and the [timeout]
    argument of [HTTPAdapter.send] ([None]: wait without limit). *)
Record Request : Type := {
  req_url : string;
  req_headers : dict;
  req_timeout : option Z
}.

Inductive event : Type :=
| EvSleep (secs : Z)          (* time.sleep called by the wrapper *)
| EvSend (req : Request)      (* one transmission of a request *)
| EvRetrySleep (secs : Z)     (* time.sleep called by Retry.sleep *)
| EvPrint (msg : string).     (* print, when the message is written *)

Inductive outcome (E A : Type) : Type :=
| Return (a : A)
| Raise (e : E).
Arguments Return {E A} a.
Arguments Raise {E A} e.

(** Library computations: events and an outcome. *)
Definition W (E A : Type) : Type := list event * outcome E A.

Definition W_ret {E A} (a : A) : W E A := ([], Return a).
Definition W_raise {E A} (e : E) : W E A := ([], Raise e).
Definition W_emit {E} (ev : event) : W E unit := ([ev], Return tt).
Definition W_bind {E A B} (c : W E A) (k : A -> W E B) : W E B :=
  match c with
  | (evs, Return a) => let (evs', r) := k a in (evs ++ evs', r)
  | (evs, Raise e) => (evs, Raise e)
  end.
(** Translating the exception of a computation ([except E1 as e: raise E2(e)]). *)
Definition W_map_exn {E E' A} (f : E -> E') (c : W E A) : W E' A :=
  match c with
  | (evs, Return a) => (evs, Return a)
  | (evs, Raise e) => (evs, Raise (f e))
  end.

Declare Scope w_scope.
Delimit Scope w_scope with W.
Notation "x <- c ;; k" := (W_bind c (fun x => k))
  (at level 100, c at next level, right associativity) : w_scope.
Notation "c ;;; k" := (W_bind c (fun _ => k))
  (at level 100, right associativity) : w_scope.

(** The requests put on the wire, in order. *)
Fixpoint sends (evs : list event) : list Request :=
  match evs with
  | [] => []
  | EvSend x :: evs' => x :: sends evs'
  | _ :: evs' => sends evs'
  end.

(** The diagnostic messages printed, in order. *)
Fixpoint prints (evs : list event) : list string :=
  match evs with
  | [] => []
  | EvPrint x :: evs' => x :: prints evs'
  | _ :: evs' => prints evs'
  end.

(** The waits of the retry policy, in order. *)
Fixpoint retry_sleeps (evs : list event) : list Z :=
  match evs with
  | [] => []
  | EvRetrySleep x :: evs' => x :: retry_sleeps evs'
  | _ :: evs' => retry_sleeps evs'
  end.

(** The pre-request delays of the wrapper, in order. *)
Fixpoint sleeps (evs : list event) : list Z :=
  match evs with
  | [] => []
  | EvSleep x :: evs' => x :: sleeps evs'
  | _ :: evs' => sleeps evs'
  end.

(* ===================================================================== *)
(** ** The parts of requests / urllib3 the wrapper relies on *)
(* ===================================================================== *)

(** The wrapper's source fixes the arguments ([total=3], [backoff_factor=2],
    the force list, the prefix ['https://'], the attribute [timeout], the
    keywords of [get]); what those arguments mean is decided by the library,
    modelled here after requests 2.32 ([sessions.py], [adapters.py],
    [models.py]) and urllib3 1.26 ([util/retry.py], [connectionpool.py]; the
    counters and the back-off formula are the same in urllib3 2).

    The control flow of the library is written out: preparation of the
    request, choice of the adapter on the prepared URL, the retry loop, the
    redirect loop with its limit and its rewriting of the headers, the reading
    of the body, the persisting of cookies.  The string and date algorithms
    inside it (parsing and quoting of URLs, validity of header values, cookie
    matching, credentials of the environment, parsing of [Retry-After],
    decoding of the body) are parameters, collected in [Env].

    Left out: response hooks, streaming, the connection pool as such (what it
    makes of the network is part of the parameter [wire]), and the logging of
    urllib3. *)
Module Lib.

(** [urllib3.util.retry.Retry], restricted to the arguments the program uses
    ([Retry(total=3, backoff_factor=2, status_forcelist=[...])] in the
    wrapper, [Retry(0, read=False)] in the library's default adapter).  All
    other arguments keep their defaults: [connect], [status], [other] and
    [redirect] are [None], [respect_retry_after_header] and [raise_on_status]
    are [True], and [GET] is an allowed method.  [read_retry = false] stands
    for [read=False]. *)
Record Retry : Type := {
  total : nat;
  read_retry : bool;
  backoff_factor : Z;
  status_forcelist : list Z
}.

#[global] Instance Retry_eq_dec : EqDecision Retry.
Proof. solve_decision. Defined.

(** [requests.adapters.HTTPAdapter(max_retries=...)] *)
Record HTTPAdapter : Type := {
  max_retries : Retry
}.

#[global] Instance HTTPAdapter_eq_dec : EqDecision HTTPAdapter.
Proof. solve_decision. Defined.

(** [DEFAULT_RETRIES = 0] makes [HTTPAdapter()] use [Retry(0, read=False)]. *)
Definition default_adapter : HTTPAdapter :=
  {| max_retries := {| total := 0; read_retry := false;
                       backoff_factor := 0; status_forcelist := [] |} |}.

(** The cookies of a session, as the library stores them. *)
Definition jar : Type := list string.

(** [requests.Session]: the default headers (a [CaseInsensitiveDict]), the
    mounted adapters in iteration order, the cookie jar, and the attribute
    [timeout], which [Session] does not declare (it is not in
    [Session.__attrs__] and no method of [Session] reads it); [None] while it
    has not been assigned.  [max_redirects] and [trust_env] keep their
    defaults. *)
Record Session : Type := {
  s_headers : dict;
  adapters : list (string * HTTPAdapter);
  timeout : option Z;
  cookies : jar
}.

(** [DEFAULT_REDIRECT_LIMIT] *)
Definition max_redirects : nat := 30.

(** [self.adapters[prefix] = adapter]: an existing key keeps its place, a new
    key goes last. *)
Fixpoint dict_setitem (prefix : string) (adapter : HTTPAdapter)
    (d : list (string * HTTPAdapter)) : list (string * HTTPAdapter) :=
  match d with
  | [] => [(prefix, adapter)]
  | (k, a) :: d' =>
      if decide (k = prefix) then (prefix, adapter) :: d'
      else (k, a) :: dict_setitem prefix adapter d'
  end.

(** [Session.mount]: set the entry, then move every key shorter than the
    prefix to the end (each one popped and re-inserted, in iteration order). *)
Definition mount (prefix : string) (adapter : HTTPAdapter) (s : Session) : Session :=
  let d := dict_setitem prefix adapter (adapters s) in
  let shorter (ka : string * HTTPAdapter) :=
    (String.length ka.1 <? String.length prefix)%nat in
  {| s_headers := s_headers s;
     adapters := List.filter (fun ka => negb (shorter ka)) d ++ List.filter shorter d;
     timeout := timeout s;
     cookies := cookies s |}.

(** [self.session.timeout = 30] *)
Definition set_timeout (v : Z) (s : Session) : Session :=
  {| s_headers := s_headers s; adapters := adapters s; timeout := Some v;
     cookies := cookies s |}.

(** What persisting cookies does to the session object. *)
Definition set_cookies (j : jar) (s : Session) : Session :=
  {| s_headers := s_headers s; adapters := adapters s; timeout := timeout s;
     cookies := j |}.

(** The error that reading the body of an answer raises to [Session.send],
    by the requests exception it surfaces as.  (A broken or undecodable body
    of an answer that is a redirect is drained silently by
    [resolve_redirects]; such an answer has no fault.) *)
Inductive read_fault : Type :=
| BrokenBody          (* ChunkedEncodingError *)
| UndecodableBody     (* ContentDecodingError *)
| BodyTimeout         (* ConnectionError *)
| BodySSL.            (* SSLError *)

(** An answer of the server: the status, the headers (case-insensitive), the
    bytes of the body, and whether reading the body fails. *)
Record Response : Type := {
  status : Z;
  resp_headers : dict;
  body : string;
  read_fault_of : option read_fault
}.

(** Failures of one transmission, by the urllib3 exception they surface as. *)
Inductive wire_error : Type :=
| ConnectTimeoutError
| NewConnectionError
| ReadTimeoutError
| ProtocolError
| SSLFailure          (* urllib3.exceptions.SSLError *)
| ProxyFailure.       (* urllib3.exceptions.ProxyError *)

Inductive wire_result : Type :=
| WireFail (e : wire_error)
| WireResp (r : Response).

(** What [urlopen] raises: [MaxRetryError] with its reason, the original
    error re-raised by [Retry.increment], or [InvalidHeader] from the parsing
    of [Retry-After]. *)
Inductive retry_reason : Type :=
| ReasonError (e : wire_error)
| ReasonResponse (status_code : Z).   (* ResponseError("too many ... error responses") *)

Inductive urllib3_error : Type :=
| MaxRetryError (reason : retry_reason)
| Reraised (e : wire_error)
| InvalidRetryAfter (raw : string).

(** A raised exception: its class and what it was built from. *)
Inductive exn_args : Type :=
| ArgsTransport (e : urllib3_error)
| ArgsUrl (url : string)
| ArgsDoc (doc : string)
| ArgsSleep (secs : Z)
| ArgsHeader (name value : string)
| ArgsBody (f : read_fault)
| ArgsMsg (msg : string).

Record exn : Type := Exn {
  exc_type : pyclass;
  exc_args : exn_args
}.

Definition isinstance (e : exn) (c : pyclass) : bool := issubclass (exc_type e) c.

(** *** What is taken as given *)

(** Why [PreparedRequest.prepare_url] refuses a URL. *)
Inductive url_fault : Type :=
| NoScheme     (* MissingSchema *)
| BadUrl.      (* InvalidURL: no host, invalid label, unparsable *)

(** Why [HTTPAdapter.send] fails before anything is transmitted. *)
Inductive conn_fault : Type :=
| BadLocation           (* InvalidURL, from LocationValueError *)
| NoCertificateBundle   (* OSError, from cert_verify *)
| BadProxy.             (* InvalidSchema / InvalidProxyURL of the proxy settings *)

(** Why [json.loads] fails on a text other than by [JSONDecodeError]. *)
Inductive json_fault : Type :=
| TooDeep      (* RecursionError *)
| NoMemory.    (* MemoryError *)

Record Env : Type := {
  (** [print(msg)]: the class of the exception raised while the message is
      written to the standard output ([UnicodeEncodeError] when the stream
      cannot encode it, [BrokenPipeError], ...), if any. *)
  stdout_write : string -> option pyclass;
  (** [PreparedRequest.prepare_url(url, params)]: leading white space
      stripped, the URL parsed and checked, the parameters encoded into the
      query, the result quoted. *)
  prepare_url : string -> dict -> outcome url_fault string;
  (** [check_header_validity((name, value))] *)
  check_header_validity : string -> string -> bool;
  (** [get_cookie_header(jar, request)] for a request to this URL. *)
  get_cookie_header : jar -> string -> option string;
  (** [extract_cookies_to_jar(jar, request, response.raw)] *)
  extract_cookies_to_jar : jar -> Request -> Response -> jar;
  (** [get_netrc_auth(url)], as the value of the [Authorization] header. *)
  get_netrc_auth : string -> option string;
  (** [get_auth_from_url(url)], as the value of the [Authorization] header. *)
  get_auth_from_url : string -> option string;
  (** [Session.should_strip_auth(old_url, new_url)] *)
  should_strip_auth : string -> string -> bool;
  (** The [Proxy-Authorization] that [rebuild_proxies] sets for this URL. *)
  proxy_authorization : string -> option string;
  (** Failure of [HTTPAdapter.send] before the first transmission. *)
  connection_fault : Request -> option conn_fault;
  (** [Retry.parse_retry_after(raw)] in seconds; [None] when it raises
      [InvalidHeader]. *)
  parse_retry_after : string -> option Z;
  (** The [Location] re-encoded by [get_redirect_target]; [None] when that
      raises [UnicodeDecodeError]. *)
  decode_location : string -> option string;
  (** The URL of the next hop, from the URL of the answer and its
      [Location]; [None] when [urlparse] raises [ValueError]. *)
  join_location : string -> string -> option string;
  (** The text that [Response.json] hands to [json.loads]. *)
  response_text : Response -> string;
  (** Failure of [json.loads] other than [JSONDecodeError]. *)
  loads_fault : string -> option json_fault
}.

(** *** Retry *)

(** [Retry.DEFAULT_BACKOFF_MAX] *)
Definition DEFAULT_BACKOFF_MAX : Z := 120.

(** [Retry.RETRY_AFTER_STATUS_CODES] *)
Definition RETRY_AFTER_STATUS_CODES : list Z := [413; 429; 503].

(** [Retry.get_backoff_time], as a function of the number of consecutive
    failed attempts recorded in the history (no redirect is followed inside
    [urlopen], which [requests] calls with [redirect=False]). *)
Definition get_backoff_time (r : Retry) (consecutive_errors_len : nat) : Z :=
  if (consecutive_errors_len <=? 1)%nat then 0
  else Z.min DEFAULT_BACKOFF_MAX
             (backoff_factor r * 2 ^ (Z.of_nat consecutive_errors_len - 1)).

(** [Retry.sleep]: a [Retry-After] header of the answer is parsed (which may
    raise) and a non-zero value is slept for; otherwise the back-off is,
    unless it is zero ([_sleep_backoff] returns before calling
    [time.sleep]).  [parse_retry_after] clips negative values to 0. *)
Definition Retry_sleep (env : Env) (r : Retry) (consecutive_errors_len : nat)
    (response : option Response) : W urllib3_error unit :=
  let backoff := get_backoff_time r consecutive_errors_len in
  let sleep_backoff : W urllib3_error unit :=
    if backoff <=? 0 then W_ret tt else W_emit (EvRetrySleep backoff) in
  match response ≫= (fun resp => ci_get "Retry-After" (resp_headers resp)) with
  | Some raw =>
      match parse_retry_after env raw with
      | None => W_raise (InvalidRetryAfter raw)
      | Some secs =>
          let secs := Z.max 0 secs in
          if secs =? 0 then sleep_backoff else W_emit (EvRetrySleep secs)
      end
  | None => sleep_backoff
  end.

(** [bool(response.headers.get("Retry-After"))] *)
Definition has_retry_after (response : Response) : bool :=
  match ci_get "Retry-After" (resp_headers response) with
  | Some raw => nonempty raw
  | None => false
  end.

(** [Retry.is_retry] for method [GET], on a [Retry] object whose [total] is
    [remaining]. *)
Definition is_retry (r : Retry) (remaining : nat) (response : Response) : bool :=
  if bool_decide (status response ∈ status_forcelist r) then true
  else negb (remaining =? 0)%nat
       && has_retry_after response
       && bool_decide (status response ∈ RETRY_AFTER_STATUS_CODES).

(** [Retry._is_read_error] *)
Definition is_read_error (e : wire_error) : bool :=
  match e with
  | ReadTimeoutError | ProtocolError => true
  | ConnectTimeoutError | NewConnectionError | SSLFailure | ProxyFailure => false
  end.

(** What [HTTPAdapter.send] turns the exceptions of [urlopen] into. *)
Definition translate (e : urllib3_error) : exn :=
  Exn match e with
      | Reraised ProtocolError => ConnectionError
      | Reraised ReadTimeoutError => ReadTimeout
      | Reraised SSLFailure => SSLError
      | Reraised ProxyFailure => ProxyError
      | Reraised (ConnectTimeoutError | NewConnectionError) => Urllib3HTTPError
      | InvalidRetryAfter _ => InvalidHeader
      | MaxRetryError (ReasonError ConnectTimeoutError) => ConnectTimeout
      | MaxRetryError (ReasonResponse _) => RetryError
      | MaxRetryError (ReasonError ProxyFailure) => ProxyError
      | MaxRetryError (ReasonError SSLFailure) => SSLError
      | MaxRetryError (ReasonError _) => ConnectionError
      end
      (ArgsTransport e).

(** [Session.get_adapter]: the first mounted prefix that the lower-cased URL
    starts with; [InvalidSchema] when there is none. *)
Definition get_adapter (s : Session) (url : string) : outcome exn HTTPAdapter :=
  match List.find (fun pa => startswith (lower url) (lower pa.1)) (adapters s) with
  | Some pa => Return pa.2
  | None => Raise (Exn InvalidSchema (ArgsUrl url))
  end.

(** [time.sleep] as called by the wrapper. *)
Definition time_sleep (secs : Z) : W exn unit :=
  if secs <? 0 then W_raise (Exn ValueError (ArgsSleep secs))
  else W_emit (EvSleep secs).

(** *** Preparing a request *)

Definition url_fault_class (f : url_fault) : pyclass :=
  match f with NoScheme => MissingSchema | BadUrl => InvalidURL end.

Definition conn_fault_class (f : conn_fault) : pyclass :=
  match f with
  | BadLocation => InvalidURL
  | NoCertificateBundle => OSError
  | BadProxy => InvalidSchema
  end.

Definition read_fault_class (f : read_fault) : pyclass :=
  match f with
  | BrokenBody => ChunkedEncodingError
  | UndecodableBody => ContentDecodingError
  | BodyTimeout => ConnectionError
  | BodySSL => SSLError
  end.

Definition json_fault_class (f : json_fault) : pyclass :=
  match f with TooDeep => RecursionError | NoMemory => MemoryError end.

(** [PreparedRequest.prepare_cookies]: a [Cookie] header is generated from
    the jar unless the request already has one. *)
Definition prepare_cookies (env : Env) (j : jar) (url : string) (h : dict) : dict :=
  match ci_get "Cookie" h with
  | Some _ => h
  | None =>
      match get_cookie_header env j url with
      | Some c => ci_set "Cookie" c h
      | None => h
      end
  end.

(** [Session.prepare_request] followed by [PreparedRequest.prepare] for a
    [GET] without body: the URL, then the headers of the call merged over
    those of the session and checked one by one, then the cookies, then the
    credentials of [~/.netrc] or else of the URL. *)
Definition prepare_request (env : Env) (s : Session) (url : string)
    (params headers : option dict) (timeout_arg : option Z) : outcome exn Request :=
  match prepare_url env url (default [] params) with
  | Raise f => Raise (Exn (url_fault_class f) (ArgsUrl url))
  | Return prepared_url =>
      let merged := ci_update (s_headers s) (default [] headers) in
      match List.find (fun kv => negb (check_header_validity env kv.1 kv.2)) merged with
      | Some kv => Raise (Exn InvalidHeader (ArgsHeader kv.1 kv.2))
      | None =>
          let h := prepare_cookies env (cookies s) prepared_url merged in
          let auth := match get_netrc_auth env url with
                      | Some a => Some a
                      | None => get_auth_from_url env prepared_url
                      end in
          let h := match auth with
                   | Some a => ci_set "Authorization" a h
                   | None => h
                   end in
          Return {| req_url := prepared_url; req_headers := h;
                    req_timeout := timeout_arg |}
      end
  end.

(** *** Redirects *)

(** [requests.models.REDIRECT_STATI] *)
Definition REDIRECT_STATI : list Z := [301; 302; 303; 307; 308].

(** [Session.get_redirect_target] *)
Definition get_redirect_target (env : Env) (resp : Response)
    : outcome exn (option string) :=
  if bool_decide (status resp ∈ REDIRECT_STATI) then
    match ci_get "location" (resp_headers resp) with
    | Some location =>
        match decode_location env location with
        | Some l => Return (Some l)
        | None => Raise (Exn UnicodeDecodeError (ArgsUrl location))
        end
    | None => Return None
    end
  else Return None.

(** The headers of the request of the next hop, as [resolve_redirects]
    rewrites them: body headers purged unless the status is 307 or 308,
    [Cookie] regenerated from the jar, [Proxy-Authorization] rebuilt,
    [Authorization] stripped where [should_strip_auth] says so and set again
    from [~/.netrc]. *)
Definition hop_headers (env : Env) (j : jar) (old_url new_url : string)
    (code : Z) (h : dict) : dict :=
  let h := if bool_decide (code ∈ [307; 308]) then h
           else ci_pop "Transfer-Encoding"
                  (ci_pop "Content-Type" (ci_pop "Content-Length" h)) in
  let h := ci_pop "Cookie" h in
  let h := match get_cookie_header env j new_url with
           | Some c => ci_set "Cookie" c h
           | None => h
           end in
  let h := ci_pop "Proxy-Authorization" h in
  let h := match proxy_authorization env new_url with
           | Some v => ci_set "Proxy-Authorization" v h
           | None => h
           end in
  let h := if bool_decide (is_Some (ci_get "Authorization" h))
              && should_strip_auth env old_url new_url
           then ci_pop "Authorization" h else h in
  match get_netrc_auth env new_url with
  | Some a => ci_set "Authorization" a h
  | None => h
  end.

Section World.

Variable env : Env.

(** The network: what transmission number [n] of a call of the wrapper
    (counted from 0), carrying this request, meets. *)
Variable wire : Request -> nat -> wire_result.

(** [json.loads] on a text; [None] when it raises [JSONDecodeError]. *)
Variable loads : string -> option json.

(** [HTTPConnectionPool.urlopen] with the retry policy [r], on a [Retry]
    object whose [total] is [remaining] and whose history has [history]
    entries, [sent] transmissions having been made by the call so far.
    [Retry.increment] decrements [total] and raises [MaxRetryError] when the
    new value is negative; [read=False] re-raises a read error at once. *)
Fixpoint urlopen (r : Retry) (remaining history sent : nat) (req : Request)
    {struct remaining} : W urllib3_error Response :=
  (W_emit (EvSend req) ;;;
   match wire req sent with
   | WireFail e =>
       if is_read_error e && negb (read_retry r) then W_raise (Reraised e)
       else match remaining with
            | O => W_raise (MaxRetryError (ReasonError e))
            | S remaining' =>
                Retry_sleep env r (S history) None ;;;
                urlopen r remaining' (S history) (S sent) req
            end
   | WireResp response =>
       if is_retry r remaining response then
         match remaining with
         | O => W_raise (MaxRetryError (ReasonResponse (status response)))
         | S remaining' =>
             Retry_sleep env r (S history) (Some response) ;;;
             urlopen r remaining' (S history) (S sent) req
         end
       else W_ret response
   end)%W.

(** [HTTPAdapter.send] *)
Definition HTTPAdapter_send (a : HTTPAdapter) (sent : nat) (req : Request)
    : W exn Response :=
  match connection_fault env req with
  | Some f => W_raise (Exn (conn_fault_class f) (ArgsUrl (req_url req)))
  | None =>
      W_map_exn translate (urlopen (max_retries a) (total (max_retries a)) 0 sent req)
  end.

(** [Session.send] up to the persisting of the cookies: the adapter is looked
    up on the URL of the prepared request. *)
Definition send_once (s : Session) (j : jar) (sent : nat) (req : Request)
    : W exn Response * jar :=
  match get_adapter s (req_url req) with
  | Raise e => (W_raise e, j)
  | Return adapter =>
      let c := HTTPAdapter_send adapter sent req in
      match c.2 with
      | Return resp => (c, extract_cookies_to_jar env j req resp)
      | Raise _ => (c, j)
      end
  end.

(** The rest of [Session.send] with [allow_redirects=True], from an answer
    [resp] to the request [req]: while the answer is a redirect with a
    non-empty target, the next request is built and sent with a fresh retry
    budget, at most [hops_left] times ([TooManyRedirects] after that); the
    body of the last answer is read.  [j] is the cookie jar of the session;
    [j_inner] is the jar as it is while the answer is examined inside the
    [send] that obtained it (for the answer of a hop, before
    [resolve_redirects] persists its cookies once more). *)
Fixpoint resolve_redirects (s : Session) (hops_left : nat) (j_inner j : jar)
    (sent : nat) (req : Request) (resp : Response) {struct hops_left}
    : W exn Response * jar :=
  match get_redirect_target env resp with
  | Raise e => (W_raise e, j_inner)
  | Return target =>
      match read_fault_of resp with
      | Some f => (W_raise (Exn (read_fault_class f) (ArgsBody f)), j_inner)
      | None =>
          match target with
          | Some location =>
              if nonempty location then
                match join_location env (req_url req) location with
                | None => (W_raise (Exn ValueError (ArgsUrl location)), j_inner)
                | Some url' =>
                    match hops_left with
                    | O => (W_raise (Exn TooManyRedirects (ArgsUrl url')), j)
                    | S hops_left' =>
                        let req' :=
                          {| req_url := url';
                             req_headers :=
                               hop_headers env j (req_url req) url' (status resp)
                                           (req_headers req);
                             req_timeout := req_timeout req |} in
                        let '(c, j') := send_once s j sent req' in
                        match c.2 with
                        | Raise e => (c, j')
                        | Return resp' =>
                            let '(c', j3) :=
                              resolve_redirects s hops_left' j'
                                (extract_cookies_to_jar env j' req' resp')
                                (sent + length (sends c.1)) req' resp' in
                            ((c.1 ++ c'.1, c'.2), j3)
                        end
                    end
                end
              else (W_ret resp, j)
          | None => (W_ret resp, j)
          end
      end
  end.

(** [Session.request("GET", url, params=..., headers=..., timeout=...)] with
    [allow_redirects=True]: the request is prepared, sent, and redirects are
    followed.  The second component is the cookie jar of the session
    afterwards. *)
Definition Session_request (s : Session) (url : string)
    (params headers : option dict) (timeout_arg : option Z) : W exn Response * jar :=
  match prepare_request env s url params headers timeout_arg with
  | Raise e => (W_raise e, cookies s)
  | Return req =>
      let '(c, j) := send_once s (cookies s) 0 req in
      match c.2 with
      | Raise e => (c, j)
      | Return resp =>
          let '(c', j') :=
            resolve_redirects s max_redirects j j (length (sends c.1)) req resp in
          ((c.1 ++ c'.1, c'.2), j')
      end
  end.

(** [Session.get(url, params=params, headers=headers)]: no [timeout]
    keyword is given, so [Session.request] runs with its default
    [timeout=None]. *)
Definition Session_get (s : Session) (url : string)
    (params headers : option dict) : W exn Response * jar :=
  Session_request s url params headers None.

(** [Response.json] *)
Definition Response_json (response : Response) : W exn json :=
  let text := response_text env response in
  match loads_fault env text with
  | Some f => W_raise (Exn (json_fault_class f) (ArgsDoc text))
  | None =>
      match loads text with
      | Some v => W_ret v
      | None => W_raise (Exn RequestsJSONDecodeError (ArgsDoc text))
      end
  end.

End World.

(** [requests.session()]: a [Session] with the library's default headers, an
    empty cookie jar and a default adapter mounted on each of the two
    schemes. *)
Definition requests_session (default_headers : dict) : Session :=
  mount "http://" default_adapter
    (mount "https://" default_adapter
       {| s_headers := ci_update [] default_headers; adapters := [];
          timeout := None; cookies := [] |}).

End Lib.
Export Lib.

(* ===================================================================== *)
(** ** class CustomSession *)
(* ===================================================================== *)

(** The attributes assigned by [__init__]. *)
Record CustomSession : Type := {
  session : Session;
  headers : dict;
  delay : Z
}.

(** Running a method: the events it produced, the object afterwards, and the
    value returned or the exception that escaped. *)
Record run (A : Type) : Type := Run {
  events : list event;
  self_after : CustomSession;
  result : outcome exn A
}.
Arguments Run {A} events self_after result.
Arguments events {A} r.
Arguments self_after {A} r.
Arguments result {A} r.

Definition M (A : Type) : Type := CustomSession -> run A.

Definition M_ret {A} (a : A) : M A := fun self => Run [] self (Return a).

Definition M_bind {A B} (c : M A) (k : A -> M B) : M B := fun self =>
  match c self with
  | Run evs self1 (Return a) =>
      let r := k a self1 in Run (evs ++ events r) (self_after r) (result r)
  | Run evs self1 (Raise e) => Run evs self1 (Raise e)
  end.

(** Reading an attribute of [self]. *)
Definition M_getattr {A} (field : CustomSession -> A) : M A :=
  fun self => Run [] self (Return (field self)).

(** A library call that does not touch the object ([time.sleep],
    [response.json()]). *)
Definition M_lift {A} (c : W exn A) : M A := fun self => Run c.1 self c.2.

(** A method call on [self.session]: the session object keeps the cookies
    the call has persisted, whether the call returns or raises. *)
Definition M_session {A} (c : W exn A * jar) : M A := fun self =>
  Run c.1.1
      {| session := set_cookies c.2 (session self);
         headers := headers self;
         delay := delay self |}
      c.1.2.

(** [print(msg)]: the message is written, or the writing raises. *)
Definition print (env : Env) (msg : string) : M unit := fun self =>
  match stdout_write env msg with
  | None => Run [EvPrint msg] self (Return tt)
  | Some c => Run [] self (Raise (Exn c (ArgsMsg msg)))
  end.

(** [try: body / except C1: h1 / except C2 as err: h2 ...]: the first clause
    whose class the exception is an instance of handles it; with no such
    clause the exception escapes.  An exception raised by a handler escapes. *)
Definition try_except {A} (body : M A) (clauses : list (pyclass * (exn -> M A))) : M A :=
  fun self =>
    match body self with
    | Run evs self1 (Raise e) =>
        match List.find (fun cl => isinstance e cl.1) clauses with
        | Some cl =>
            let r := cl.2 e self1 in
            Run (evs ++ events r) (self_after r) (result r)
        | None => Run evs self1 (Raise e)
        end
    | r => r
    end.

Declare Scope m_scope.
Delimit Scope m_scope with M.
Notation "x <- c ;; k" := (M_bind c (fun x => k))
  (at level 100, c at next level, right associativity) : m_scope.
Notation "c ;;; k" := (M_bind c (fun _ => k))
  (at level 100, right associativity) : m_scope.

(** [Retry(total=3, backoff_factor=2, status_forcelist=[...])] of [__init__]. *)
Definition retries : Retry :=
  {| total := 3;
     read_retry := true;
     backoff_factor := 2;
     status_forcelist := [500; 502; 503; 504; 400; 401; 402; 403] |}.

Section Wrapper.

Variable env : Env.
Variable wire : Request -> nat -> wire_result.
Variable loads : string -> option json.

(** [requests.utils.default_headers()] *)
Variable default_headers : dict.

(** [str(err)] inside the f-string of the second handler. *)
Variable str : exn -> string.

(** [headers if headers else {}]: [None] and the empty dict are falsy. *)
Definition headers_or_empty (headers : option dict) : dict :=
  match headers with
  | Some h => if decide (h = []) then [] else h
  | None => []
  end.

Definition __init__ (headers : option dict) : CustomSession :=
  let session := requests_session default_headers in
  let headers := headers_or_empty headers in
  let session := mount "https://" {| max_retries := retries |} session in
  let session := set_timeout 30 session in
  {| session := session; headers := headers; delay := 1 |}.

Definition get_session : M Session :=
  M_getattr session.

Definition hit_and_get_data (url : string) (params : option dict) : M json :=
  try_except
    (d <- M_getattr delay ;;
     M_lift (time_sleep d) ;;;
     s <- M_getattr session ;;
     h <- M_getattr headers ;;
     response <- M_session (Session_get env wire s url params (Some h)) ;;
     M_lift (Response_json env loads response))%M
    [ (JSONDecodeError, fun _ =>
         (print env ("Failed to decode JSON from response at URL: " +:+ url) ;;;
          M_ret empty_dict)%M);
      (Exception, fun err =>
         (print env ("Error in connecting to URL: " +:+ url +:+ " | Error: " +:+ str err) ;;;
          M_ret empty_dict)%M) ].

(** The GET request of a call (the [self.session.get(...)] of
    [hit_and_get_data]) taken on its own: its events and its outcome. *)
Definition get_of_call (self : CustomSession) (url : string)
    (params : option dict) : W exn Response :=
  (Session_get env wire (session self) url params (Some (headers self))).1.

(** The cookie jar of the session after the GET of a call. *)
Definition jar_of_call (self : CustomSession) (url : string)
    (params : option dict) : jar :=
  (Session_get env wire (session self) url params (Some (headers self))).2.

(** The request of a call as the library prepares it, before anything is
    transmitted. *)
Definition first_request (self : CustomSession) (url : string)
    (params : option dict) : outcome exn Request :=
  prepare_request env (session self) url params (Some (headers self)) None.

End Wrapper.

(** The two diagnostic messages of [hit_and_get_data]. *)
Definition decode_message (url : string) : string :=
  "Failed to decode JSON from response at URL: " +:+ url.

Definition connect_message (str : exn -> string) (url : string) (err : exn) : string :=
  "Error in connecting to URL: " +:+ url +:+ " | Error: " +:+ str err.


(** What an [except] clause of [hit_and_get_data] does with its message,
    after the events [evs] of the [try] body, on the object [self]. *)
Definition diagnose (env : Env) (msg : string) (evs : list event)
    (self : CustomSession) : run json :=
  match stdout_write env msg with
  | None => Run (evs ++ [EvPrint msg]) self (Return empty_dict)
  | Some c => Run evs self (Raise (Exn c (ArgsMsg msg)))
  end.

(** The object after the GET of a call has persisted its cookies. *)
Definition with_jar (j : jar) (self : CustomSession) : CustomSession :=
  {| session := set_cookies j (session self);
     headers := headers self;
     delay := delay self |}.

(* ===================================================================== *)
(** ** Vocabulary for the behaviour of the network under the retry policy *)
(* ===================================================================== *)

(** A transmission that the policy [r] answers with a retry (while retries
    are left): a transport failure, or a response whose status is on the
    force list. *)
Definition retried_by (r : Retry) (res : wire_result) : Prop :=
  match res with
  | WireFail _ => True
  | WireResp response => status response ∈ status_forcelist r
  end.

(** A transmission whose answer, if there is one, has no [Retry-After]
    header. *)
Definition without_retry_after (res : wire_result) : Prop :=
  match res with
  | WireFail _ => True
  | WireResp response => ci_get "Retry-After" (resp_headers response) = None
  end.

(** A transmission whose answer, if there is one, has a [Retry-After] header
    that can be parsed, or none. *)
Definition retry_after_ok (env : Env) (res : wire_result) : Prop :=
  match res with
  | WireFail _ => True
  | WireResp response =>
      match ci_get "Retry-After" (resp_headers response) with
      | Some raw => is_Some (parse_retry_after env raw)
      | None => True
      end
  end.

(** An answer that ends the exchange: no [Retry-After] header, not a
    redirect, and a body that can be read. *)
Definition final_answer (response : Response) : Prop :=
  ci_get "Retry-After" (resp_headers response) = None
  /\ (status response ∉ REDIRECT_STATI)
  /\ read_fault_of response = None.

(** The reason [MaxRetryError] carries when the budget runs out on this
    transmission: the transport error, or a [ResponseError] for the status. *)
Definition reason_of (res : wire_result) : retry_reason :=
  match res with
  | WireFail e => ReasonError e
  | WireResp response => ReasonResponse (status response)
  end.

(** The events of a retry loop whose every transmission is retried after the
    back-off: [count + 1] transmissions of [req], a wait between two of them
    where the back-off is positive. *)
Fixpoint backoff_trace (r : Retry) (req : Request) (history count : nat) : list event :=
  match count with
  | O => [EvSend req]
  | S count' =>
      let backoff := get_backoff_time r (S history) in
      EvSend req
      :: (if backoff <=? 0 then [] else [EvRetrySleep backoff])
      ++ backoff_trace r req (S history) count'
  end.

(** Events that are neither a transmission, nor a message, nor a sleep of the
    wrapper. *)
Definition quiet (evs : list event) : Prop :=
  sends evs = [] /\ prints evs = [] /\ sleeps evs = [].

(** The exceptions that the second [except] clause handles and the first
    does not. *)
Definition for_second_clause (e : exn) : Prop :=
  isinstance e Exception = true /\ isinstance e JSONDecodeError = false.

(** A wrapper as [__init__] configures it and as calls leave it: the two
    adapters mounted by [requests.session()] and [__init__], and a delay of
    one second.  (The cookie jar of the session changes from call to call.) *)
Definition configured (self : CustomSession) : Prop :=
  adapters (session self)
  = [("https://", {| max_retries := retries |}); ("http://", default_adapter)]
  /\ delay self = 1.


(* ===================================================================== *)
(** ** Stub environments and servers for the examples *)
(* ===================================================================== *)
Module Stub.

(** [Retry-After] values the stub understands. *)
Definition parse_seconds (raw : string) : option Z :=
  if decide (raw = "5") then Some 5
  else if decide (raw = "0") then Some 0
  else None.

(** [prepare_url] on the URLs of the examples, which are used without
    parameters: a URL without scheme is refused, leading white space is
    stripped, a non-ASCII path is quoted; the other URLs are in prepared form
    already. *)
Definition prepare (url : string) (params : dict) : outcome url_fault string :=
  if decide (url = "example.test/data") then Raise NoScheme
  else if decide (url = " http://example.test/data") then Return "http://example.test/data"
  else if decide (url = "https://example.test/café")
       then Return "https://example.test/caf%C3%A9"
  else Return url.

(** An environment without cookies, credentials or proxies, whose standard
    output takes every message. *)
Definition env : Env :=
  {| stdout_write := fun _ => None;
     prepare_url := prepare;
     check_header_validity := fun _ _ => true;
     get_cookie_header := fun _ _ => None;
     extract_cookies_to_jar := fun j _ _ => j;
     get_netrc_auth := fun _ => None;
     get_auth_from_url := fun _ => None;
     should_strip_auth := fun _ _ => false;
     proxy_authorization := fun _ => None;
     connection_fault := fun _ => None;
     parse_retry_after := parse_seconds;
     decode_location := Some;
     join_location := fun _ location => Some location;
     response_text := body;
     loads_fault := fun _ => None |}.


(** The same environment with a decoder that gives up on every text for
    being nested too deeply. *)
Definition env_shallow_stack : Env :=
  {| stdout_write := stdout_write env;
     prepare_url := prepare_url env;
     check_header_validity := check_header_validity env;
     get_cookie_header := get_cookie_header env;
     extract_cookies_to_jar := extract_cookies_to_jar env;
     get_netrc_auth := get_netrc_auth env;
     get_auth_from_url := get_auth_from_url env;
     should_strip_auth := should_strip_auth env;
     proxy_authorization := proxy_authorization env;
     connection_fault := connection_fault env;
     parse_retry_after := parse_retry_after env;
     decode_location := decode_location env;
     join_location := join_location env;
     response_text := response_text env;
     loads_fault := fun _ => Some TooDeep |}.



(** An answer with a status, headers and a body that can be read. *)
Definition answer (status_code : Z) (hdrs : dict) (text : string) : Response :=
  {| status := status_code; resp_headers := hdrs; body := text;
     read_fault_of := None |}.

(** A server that answers every transmission with the same status and body. *)
Definition always (status_code : Z) (text : string) : Request -> nat -> wire_result :=
  fun _ _ => WireResp (answer status_code [] text).

(** A host that cannot be reached. *)
Definition unreachable : Request -> nat -> wire_result :=
  fun _ _ => WireFail NewConnectionError.


(** Every transmission is answered with [status_code] and a [Retry-After]
    header. *)
Definition come_back_later (status_code : Z) (raw : string) (text : string)
    : Request -> nat -> wire_result :=
  fun _ _ => WireResp (answer status_code [("Retry-After", raw)] text).

(** The URL [from] answers 302 with [Location: target]; every other URL
    answers 200 with [text]. *)
Definition moved (from target text : string) : Request -> nat -> wire_result :=
  fun req _ =>
    if decide (req_url req = from)
    then WireResp (answer 302 [("Location", target)] "")
    else WireResp (answer 200 [] text).

(** A decoder that knows two documents. *)
Definition loads (doc : string) : option json :=
  if decide (doc = "{}") then Some (JObj [])
  else if decide (doc = "[1]") then Some (JArr [JInt 1])
  else None.

Definition str (e : exn) : string :=
  match exc_type e with
  | RetryError => "Max retries exceeded"
  | InvalidSchema => "No connection adapters were found"
  | _ => "Connection failed"
  end.


(** A wrapper whose [delay] has been reassigned after construction. *)
Definition with_delay (d : Z) (self : CustomSession) : CustomSession :=
  {| session := session self; headers := headers self; delay := d |}.

End Stub.


(* ===================================================================== *)
(** ** Facts about the library layer *)
(* ===================================================================== *)

Lemma prints_app (xs ys : list event) : prints (xs ++ ys) = prints xs ++ prints ys.
Proof. induction xs as [|[] xs IH]; simpl; congruence. Qed.

Lemma sends_app (xs ys : list event) : sends (xs ++ ys) = sends xs ++ sends ys.
Proof. induction xs as [|[] xs IH]; simpl; congruence. Qed.

Lemma sleeps_app (xs ys : list event) : sleeps (xs ++ ys) = sleeps xs ++ sleeps ys.
Proof. induction xs as [|[] xs IH]; simpl; congruence. Qed.

Lemma retry_sleeps_app (xs ys : list event) :
  retry_sleeps (xs ++ ys) = retry_sleeps xs ++ retry_sleeps ys.
Proof. induction xs as [|[] xs IH]; simpl; congruence. Qed.



Lemma W_map_exn_events {E E' A} (f : E -> E') (c : W E A) :
  (W_map_exn f c).1 = c.1.
Proof. by destruct c as [evs [a|e]]. Qed.


Lemma W_map_exn_raise {E E' A} (f : E -> E') (c : W E A) (e : E) :
  c.2 = Raise e -> (W_map_exn f c).2 = Raise (f e).
Proof. destruct c as [evs [a'|e']]; simpl; congruence. Qed.

Ltac tidy :=
  repeat split; simpl in *; try lia; try done; try (by repeat constructor).

#[local] Arguments is_retry : simpl never.
#[local] Arguments ascii_dec : simpl never.

(** The redirect limit, as a number of hops. *)
Lemma max_redirects_eq : max_redirects = S 29.
Proof. reflexivity. Qed.

#[local] Opaque max_redirects.

(** Events of [Retry.sleep]: at most one, and a retry sleep. *)
Lemma Retry_sleep_events (env : Env) (r : Retry) (n : nat) (response : option Response) :
  quiet (Retry_sleep env r n response).1
  /\ (length (retry_sleeps (Retry_sleep env r n response).1) <= 1)%nat.
Proof.
  unfold Retry_sleep, quiet.
  destruct (response ≫= _) as [raw|]; simpl;
    [destruct (parse_retry_after env raw) as [secs|]; simpl|];
    repeat match goal with |- context [if ?b then _ else _] => destruct b end;
    simpl; repeat split; lia.
Qed.

Section LibFacts.

Variable env : Env.
Variable wire : Request -> nat -> wire_result.
Variable loads : string -> option json.

(** One step of the retry loop. *)
Lemma urlopen_unfold (r : Retry) (remaining history sent : nat) (req : Request) :
  urlopen env wire r remaining history sent req =
  (W_emit (EvSend req) ;;;
   match wire req sent with
   | WireFail e =>
       if is_read_error e && negb (read_retry r) then W_raise (Reraised e)
       else match remaining with
            | O => W_raise (MaxRetryError (ReasonError e))
            | S remaining' =>
                Retry_sleep env r (S history) None ;;;
                urlopen env wire r remaining' (S history) (S sent) req
            end
   | WireResp response =>
       if is_retry r remaining response then
         match remaining with
         | O => W_raise (MaxRetryError (ReasonResponse (status response)))
         | S remaining' =>
             Retry_sleep env r (S history) (Some response) ;;;
             urlopen env wire r remaining' (S history) (S sent) req
         end
       else W_ret response
   end)%W.
Proof. destruct remaining; reflexivity. Qed.

(** [urlopen] transmits only the request it was given, at most
    [remaining + 1] times with at most [remaining] waits, prints nothing and
    never calls the wrapper's sleep. *)
Lemma urlopen_events (r : Retry) (req : Request) (remaining history sent : nat) :
  let evs := (urlopen env wire r remaining history sent req).1 in
  Forall (fun q => q = req) (sends evs) /\ prints evs = [] /\ sleeps evs = []
  /\ (length (sends evs) <= S remaining)%nat
  /\ (length (retry_sleeps evs) <= remaining)%nat.
Proof.
  revert history sent.
  induction remaining as [|remaining IH]; intros history sent;
    rewrite urlopen_unfold; simpl;
    destruct (wire req sent) as [e|response]; simpl.
  - destruct (is_read_error e && negb (read_retry r)); simpl;
      tidy.
  - destruct (is_retry r 0 response); simpl;
      tidy.
  - destruct (is_read_error e && negb (read_retry r)); simpl;
      [tidy|].
    destruct (Retry_sleep_events env r (S history) None) as ((Hs & Hp & Hsl) & Hrs).
    destruct (Retry_sleep env r (S history) None) as [evs [[]|e']]; simpl in *.
    + specialize (IH (S history) (S sent)).
      destruct (urlopen env wire r remaining (S history) (S sent) req) as [evs' o].
      simpl in *. destruct IH as (IHs & IHp & IHsl & IHn & IHw).
      rewrite sends_app, prints_app, sleeps_app, retry_sleeps_app, !length_app,
        Hs, Hp, Hsl; simpl.
      tidy; by constructor.
    + rewrite Hs, Hp, Hsl. tidy.
  - destruct (is_retry r (S remaining) response); simpl;
      [|tidy].
    destruct (Retry_sleep_events env r (S history) (Some response))
      as ((Hs & Hp & Hsl) & Hrs).
    destruct (Retry_sleep env r (S history) (Some response)) as [evs [[]|e']];
      simpl in *.
    + specialize (IH (S history) (S sent)).
      destruct (urlopen env wire r remaining (S history) (S sent) req) as [evs' o].
      simpl in *. destruct IH as (IHs & IHp & IHsl & IHn & IHw).
      rewrite sends_app, prints_app, sleeps_app, retry_sleeps_app, !length_app,
        Hs, Hp, Hsl; simpl.
      tidy; by constructor.
    + rewrite Hs, Hp, Hsl. tidy.
Qed.

(** Every exception of [HTTPAdapter.send] derives from [Exception] and is
    not a [JSONDecodeError]. *)
Lemma translate_class (e : urllib3_error) : for_second_clause (translate e).
Proof. destruct e as [[[]|]|[]|]; split; reflexivity. Qed.

Lemma HTTPAdapter_send_events (a : HTTPAdapter) (sent : nat) (req : Request) :
  let evs := (HTTPAdapter_send env wire a sent req).1 in
  Forall (fun q => q = req) (sends evs) /\ prints evs = [] /\ sleeps evs = []
  /\ (length (sends evs) <= S (total (max_retries a)))%nat
  /\ (length (retry_sleeps evs) <= total (max_retries a))%nat.
Proof.
  unfold HTTPAdapter_send.
  destruct (connection_fault env req); simpl;
    [tidy|].
  rewrite W_map_exn_events. apply urlopen_events.
Qed.

Lemma HTTPAdapter_send_raises (a : HTTPAdapter) (sent : nat) (req : Request) (e : exn) :
  (HTTPAdapter_send env wire a sent req).2 = Raise e -> for_second_clause e.
Proof.
  unfold HTTPAdapter_send.
  destruct (connection_fault env req) as [[]|]; simpl.
  1-3: intros [= <-]; split; reflexivity.
  destruct (urlopen _ _ _ _ _ _ _) as [evs [resp|e']]; simpl; [discriminate|].
  intros [= <-]. apply translate_class.
Qed.

Lemma send_once_events (s : Session) (j : jar) (sent : nat) (req : Request) :
  let evs := (send_once env wire s j sent req).1.1 in
  Forall (fun q => q = req) (sends evs) /\ prints evs = [] /\ sleeps evs = [].
Proof.
  unfold send_once. destruct (get_adapter s (req_url req)) as [a|e]; simpl;
    [|by repeat constructor].
  pose proof (HTTPAdapter_send_events a sent req) as (H1 & H2 & H3 & _).
  by destruct (HTTPAdapter_send env wire a sent req) as [evs [resp|e]].
Qed.

Lemma get_adapter_raises (s : Session) (url : string) (e : exn) :
  get_adapter s url = Raise e -> for_second_clause e.
Proof.
  unfold get_adapter. destruct (List.find _ _); [discriminate|].
  intros [= <-]. split; reflexivity.
Qed.

Lemma send_once_raises (s : Session) (j : jar) (sent : nat) (req : Request) (e : exn) :
  (send_once env wire s j sent req).1.2 = Raise e -> for_second_clause e.
Proof.
  unfold send_once. destruct (get_adapter s (req_url req)) as [a|e'] eqn:Ha; simpl.
  - pose proof (HTTPAdapter_send_raises a sent req e) as H.
    by destruct (HTTPAdapter_send env wire a sent req) as [evs [resp|e']].
  - intros [= <-]. by eapply get_adapter_raises.
Qed.

(** Redirect hops are sent with the [timeout] argument of the first request;
    following them prints nothing and never calls the wrapper's sleep. *)
Lemma resolve_redirects_events (s : Session) (hops_left : nat) (j_inner j : jar)
    (sent : nat) (req : Request) (resp : Response) :
  let evs := (resolve_redirects env wire s hops_left j_inner j sent req resp).1.1 in
  Forall (fun q => req_timeout q = req_timeout req) (sends evs)
  /\ prints evs = [] /\ sleeps evs = [].
Proof.
  revert j_inner j sent req resp.
  induction hops_left as [|hops_left IH]; intros j_inner j sent req resp; simpl;
    destruct (get_redirect_target env resp) as [[location|]|e]; simpl;
    try destruct (read_fault_of resp); simpl;
    try destruct (nonempty location); simpl;
    try destruct (join_location env (req_url req) location) as [url'|]; simpl;
    try by repeat constructor.
  set (req' := {| req_url := url'; req_headers := _; req_timeout := _ |}).
  pose proof (send_once_events s j sent req') as (H1 & H2 & H3).
  destruct (send_once env wire s j sent req') as [[evs [resp'|e]] j']; simpl in *.
  - specialize (IH j' (extract_cookies_to_jar env j' req' resp')
                  (sent + length (sends evs))%nat req' resp').
    destruct (resolve_redirects _ _ _ _ _ _ _ _ _) as [[evs' o] j3]; simpl in *.
    destruct IH as (IH1 & IH2 & IH3).
    rewrite sends_app, prints_app, sleeps_app, H2, H3, IH2, IH3.
    repeat split. apply Forall_app. split; [|exact IH1].
    eapply Forall_impl; [exact H1|]. by intros q ->.
  - repeat split; try done.
    eapply Forall_impl; [exact H1|]. by intros q ->.
Qed.

Lemma resolve_redirects_raises (s : Session) (hops_left : nat) (j_inner j : jar)
    (sent : nat) (req : Request) (resp : Response) (e : exn) :
  (resolve_redirects env wire s hops_left j_inner j sent req resp).1.2 = Raise e ->
  for_second_clause e.
Proof.
  revert j_inner j sent req resp.
  induction hops_left as [|hops_left IH]; intros j_inner j sent req resp; simpl;
    destruct (get_redirect_target env resp) as [[location|]|e'] eqn:Ht; simpl;
    try destruct (read_fault_of resp) as [[]|]; simpl;
    try destruct (nonempty location); simpl;
    try destruct (join_location env (req_url req) location) as [url'|]; simpl;
    try discriminate;
    try (intros [= <-]; split; reflexivity).
  all: try (intros [= <-]; unfold get_redirect_target in Ht;
            destruct (bool_decide _); [|discriminate];
            destruct (ci_get _ _); [|discriminate];
            destruct (decode_location env _); [discriminate|];
            injection Ht as <-; split; reflexivity).
  set (req' := {| req_url := url'; req_headers := _; req_timeout := _ |}).
  pose proof (send_once_raises s j sent req' e) as Hsend.
  destruct (send_once env wire s j sent req') as [[evs [resp'|e1]] j']; simpl in *.
  - specialize (IH j' (extract_cookies_to_jar env j' req' resp')
                  (sent + length (sends evs))%nat req' resp').
    by destruct (resolve_redirects _ _ _ _ _ _ _ _ _) as [[evs' o] j3].
  - exact Hsend.
Qed.

Lemma prepare_request_raises (s : Session) (url : string)
    (params hdrs : option dict) (tmo : option Z) (e : exn) :
  prepare_request env s url params hdrs tmo = Raise e -> for_second_clause e.
Proof.
  unfold prepare_request.
  destruct (prepare_url env url _) as [purl|[]]; simpl.
  - destruct (List.find _ _); [|discriminate].
    intros [= <-]. split; reflexivity.
  - intros [= <-]. split; reflexivity.
  - intros [= <-]. split; reflexivity.
Qed.

Lemma prepare_request_timeout (s : Session) (url : string)
    (params hdrs : option dict) (tmo : option Z) (req : Request) :
  prepare_request env s url params hdrs tmo = Return req -> req_timeout req = tmo.
Proof.
  unfold prepare_request.
  destruct (prepare_url env url _); [|discriminate].
  destruct (List.find _ _); [discriminate|]. by intros [= <-].
Qed.

(** The events of a [Session.request]: every transmission, on the first
    request and on redirect hops, carries the [timeout] argument; nothing is
    printed and the wrapper's sleep is not called. *)
Lemma Session_request_events (s : Session) (url : string)
    (params hdrs : option dict) (tmo : option Z) :
  let evs := (Session_request env wire s url params hdrs tmo).1.1 in
  Forall (fun q => req_timeout q = tmo) (sends evs)
  /\ prints evs = [] /\ sleeps evs = [].
Proof.
  unfold Session_request.
  destruct (prepare_request env s url params hdrs tmo) as [req|e] eqn:Hprep; simpl;
    [|by repeat constructor].
  apply prepare_request_timeout in Hprep.
  pose proof (send_once_events s (cookies s) 0 req) as (H1 & H2 & H3).
  destruct (send_once env wire s (cookies s) 0 req) as [[evs [resp|e]] j]; simpl in *.
  - pose proof (resolve_redirects_events s max_redirects j j
                  (length (sends evs)) req resp) as (R1 & R2 & R3).
    destruct (resolve_redirects _ _ _ _ _ _ _ _ _) as [[evs' o] j']; simpl in *.
    rewrite sends_app, prints_app, sleeps_app, H2, H3, R2, R3.
    repeat split. apply Forall_app. split.
    + eapply Forall_impl; [exact H1|]. by intros q ->.
    + eapply Forall_impl; [exact R1|]. intros q ->. exact Hprep.
  - repeat split; try done.
    eapply Forall_impl; [exact H1|]. by intros q ->.
Qed.

Lemma Session_request_raises (s : Session) (url : string)
    (params hdrs : option dict) (tmo : option Z) (e : exn) :
  (Session_request env wire s url params hdrs tmo).1.2 = Raise e ->
  for_second_clause e.
Proof.
  unfold Session_request.
  destruct (prepare_request env s url params hdrs tmo) as [req|e'] eqn:Hprep; simpl.
  - pose proof (send_once_raises s (cookies s) 0 req e) as Hsend.
    destruct (send_once env wire s (cookies s) 0 req) as [[evs [resp|e1]] j];
      simpl in *; [|exact Hsend].
    pose proof (resolve_redirects_raises s max_redirects j j
                  (length (sends evs)) req resp e) as Hres.
    by destruct (resolve_redirects _ _ _ _ _ _ _ _ _) as [[evs' o] j'].
  - intros [= <-]. by eapply prepare_request_raises.
Qed.

End LibFacts.

(* ===================================================================== *)
(** ** Facts about the wrapper *)
(* ===================================================================== *)

Section WrapperFacts.

Variable env : Env.
Variable wire : Request -> nat -> wire_result.
Variable loads : string -> option json.
Variable default_headers : dict.
Variable str : exn -> string.

(** The events of the GET of a call. *)
Lemma get_of_call_events (self : CustomSession) (url : string) (params : option dict) :
  let evs := (get_of_call env wire self url params).1 in
  Forall (fun q => req_timeout q = None) (sends evs)
  /\ prints evs = [] /\ sleeps evs = [].
Proof. apply Session_request_events. Qed.

(** What a call does, case by case: the sleep is refused (negative delay),
    the GET raises, [json.loads] fails otherwise than by a decoding error,
    the body does not decode, or the body decodes.  In every case but the
    first the session has the cookie jar the GET left. *)
Lemma hit_and_get_data_run (url : string) (params : option dict) (self : CustomSession) :
  hit_and_get_data env wire loads str url params self =
  if delay self <? 0 then
    diagnose env (connect_message str url (Exn ValueError (ArgsSleep (delay self))))
             [] self
  else
    let self' := with_jar (jar_of_call env wire self url params) self in
    match get_of_call env wire self url params with
    | (evs, Raise e) =>
        diagnose env (connect_message str url e) (EvSleep (delay self) :: evs) self'
    | (evs, Return response) =>
        let text := response_text env response in
        match loads_fault env text with
        | Some f =>
            diagnose env
              (connect_message str url (Exn (json_fault_class f) (ArgsDoc text)))
              (EvSleep (delay self) :: evs) self'
        | None =>
            match loads text with
            | Some v => Run (EvSleep (delay self) :: evs) self' (Return v)
            | None => diagnose env (decode_message url) (EvSleep (delay self) :: evs) self'
            end
        end
    end.
Proof.
  unfold hit_and_get_data, get_of_call, jar_of_call, try_except, M_bind, M_getattr,
    M_lift, M_session, M_ret, time_sleep, Response_json, diagnose, with_jar,
    print, connect_message, decode_message; simpl.
  destruct (delay self <? 0); simpl.
  { by destruct (stdout_write env _). }
  pose proof (Session_request_raises env wire (session self) url params
                (Some (headers self)) None) as Hraise.
  unfold Session_get.
  destruct (Session_request env wire (session self) url params (Some (headers self)) None)
    as [[evs [response|e]] j]; simpl in *.
  - destruct (loads_fault env (response_text env response)) as [[]|]; simpl.
    + destruct (stdout_write env _); simpl; by rewrite ?app_nil_r, <- ?app_assoc.
    + destruct (stdout_write env _); simpl; by rewrite ?app_nil_r, <- ?app_assoc.
    + destruct (loads (response_text env response)); simpl.
      * by rewrite ?app_nil_r.
      * destruct (stdout_write env _); simpl; by rewrite ?app_nil_r, <- ?app_assoc.
  - destruct (Hraise e eq_refl) as [Hexc Hjson].
    rewrite Hjson, Hexc; simpl.
    destruct (stdout_write env _); simpl; by rewrite ?app_nil_r, <- ?app_assoc.
Qed.

(** The events of [diagnose]: those before it, then at most the message. *)
Lemma diagnose_events (msg : string) (evs : list event) (self : CustomSession) :
  exists diagnostics,
    events (diagnose env msg evs self) = evs ++ diagnostics
    /\ sends diagnostics = [] /\ sleeps diagnostics = []
    /\ retry_sleeps diagnostics = []
    /\ (length (prints diagnostics) <= 1)%nat.
Proof.
  unfold diagnose. destruct (stdout_write env msg).
  - exists []. simpl. rewrite app_nil_r. tidy.
  - exists [EvPrint msg]. tidy.
Qed.

(** The events of a call: the delay, the events of the GET, then at most a
    diagnostic. *)
Lemma hit_and_get_data_events (url : string) (params : option dict) (self : CustomSession) :
  0 <= delay self ->
  exists diagnostics,
    events (hit_and_get_data env wire loads str url params self)
    = EvSleep (delay self) :: (get_of_call env wire self url params).1 ++ diagnostics
    /\ sends diagnostics = [] /\ sleeps diagnostics = []
    /\ retry_sleeps diagnostics = []
    /\ (length (prints diagnostics) <= 1)%nat.
Proof.
  intros Hdelay. rewrite hit_and_get_data_run.
  destruct (Z.ltb_spec (delay self) 0) as [?|_]; [lia|]. cbv zeta.
  destruct (get_of_call env wire self url params) as [evs [response|e]]; simpl.
  - destruct (loads_fault env _); [apply diagnose_events|].
    destruct (loads _); [|apply diagnose_events].
    exists []. simpl. rewrite app_nil_r. tidy.
  - apply diagnose_events.
Qed.

(** The requests a call transmits are those of its GET, all of them sent
    without a timeout; the call sleeps its delay once. *)
Lemma hit_and_get_data_sends (url : string) (params : option dict) (self : CustomSession) :
  0 <= delay self ->
  let evs := events (hit_and_get_data env wire loads str url params self) in
  sends evs = sends (get_of_call env wire self url params).1
  /\ sleeps evs = [delay self]
  /\ retry_sleeps evs = retry_sleeps (get_of_call env wire self url params).1
  /\ Forall (fun q => req_timeout q = None) (sends evs).
Proof.
  intros Hdelay evs. subst evs.
  destruct (hit_and_get_data_events url params self Hdelay)
    as (diagnostics & -> & Hs & Hsl & Hrs & _).
  pose proof (get_of_call_events self url params) as (Hreq & _ & Hsleeps).
  simpl. rewrite sends_app, sleeps_app, retry_sleeps_app, Hs, Hsl, Hrs, Hsleeps,
    !app_nil_r.
  done.
Qed.

(** Which adapter serves a URL on a session that has the adapters of a
    constructed wrapper. *)
Lemma get_adapter_init (s : Session) (url : string) :
  adapters s = [("https://", {| max_retries := retries |}); ("http://", default_adapter)] ->
  get_adapter s url =
  if startswith (lower url) "https://" then Return {| max_retries := retries |}
  else if startswith (lower url) "http://" then Return default_adapter
  else Raise (Exn InvalidSchema (ArgsUrl url)).
Proof.
  intros Hads. unfold get_adapter. rewrite Hads. cbn [List.find fst].
  change (lower "https://") with "https://".
  change (lower "http://") with "http://".
  destruct (startswith (lower url) "https://"); [reflexivity|].
  destruct (startswith (lower url) "http://"); reflexivity.
Qed.

End WrapperFacts.

(* ===================================================================== *)
(** ** The contract of [get_session]; the timeout; the order of events *)
(* ===================================================================== *)

(** C9. [get_session] takes nothing but the object, returns the session
    stored in it, produces no event, raises nothing and leaves the object
    unchanged; called twice it returns the same session twice, and on a
    freshly constructed wrapper that is the session built by [__init__]. *)
Theorem get_session_pure (default_headers : dict) (hs : option dict)
    (self : CustomSession) :
  get_session self = Run [] self (Return (session self))
  /\ (s1 <- get_session ;; s2 <- get_session ;; M_ret (s1, s2))%M self
     = Run [] self (Return (session self, session self))
  /\ result (get_session (__init__ default_headers hs))
     = Return (set_timeout 30
                 (mount "https://" {| max_retries := retries |}
                    (requests_session default_headers))).
Proof. repeat split. Qed.

(** C6.  [__init__] stores 30 in the attribute [timeout] of the session, yet
    every request a call transmits is sent with [timeout=None]. *)
Theorem session_timeout_not_in_force
    (env : Env)
    (wire : Request -> nat -> wire_result) (loads : string -> option json)
    (default_headers : dict) (str : exn -> string)
    (hs : option dict) (url : string) (params : option dict) :
  let self := __init__ default_headers hs in
  timeout (session self) = Some 30
  /\ Forall (fun req => req_timeout req = None)
            (sends (events (hit_and_get_data env wire loads str url params self))).
Proof.
  intros self. split; [reflexivity|].
  destruct (hit_and_get_data_sends env wire loads str url params self)
    as (_ & _ & _ & Hreq); [subst self; simpl; lia|].
  exact Hreq.
Qed.


(* ===================================================================== *)
(** ** Case-insensitive dictionaries *)
(* ===================================================================== *)

Lemma same_name_trans_false (a b c : string) :
  same_name a b = true -> same_name b c = false -> same_name a c = false.
Proof.
  unfold same_name. intros H1%bool_decide_eq_true H2%bool_decide_eq_false.
  apply bool_decide_eq_false. congruence.
Qed.

Lemma same_name_trans (a b c : string) :
  same_name a b = true -> same_name b c = true -> same_name a c = true.
Proof.
  unfold same_name. intros H1%bool_decide_eq_true H2%bool_decide_eq_true.
  apply bool_decide_eq_true. congruence.
Qed.

Lemma same_name_sym (a b : string) : same_name a b = same_name b a.
Proof. unfold same_name. apply bool_decide_ext. split; congruence. Qed.


(** Lookup after an assignment. *)
Lemma ci_get_set (name m v : string) (d : dict) :
  ci_get name (ci_set m v d) = if same_name m name then Some v else ci_get name d.
Proof.
  induction d as [|[k v0] d IH]; simpl; [reflexivity|].
  destruct (same_name k m) eqn:Hkm; simpl.
  - destruct (same_name m name) eqn:Hmn; [reflexivity|].
    by rewrite (same_name_trans_false _ _ _ Hkm Hmn).
  - destruct (same_name k name) eqn:Hkn; [|exact IH].
    destruct (same_name m name) eqn:Hmn; [|reflexivity].
    rewrite same_name_sym in Hmn.
    by rewrite (same_name_trans _ _ _ Hkn Hmn) in Hkm.
Qed.

(** Lookup after a removal of another name. *)
Lemma ci_get_pop (name m : string) (d : dict) :
  same_name m name = false -> ci_get name (ci_pop m d) = ci_get name d.
Proof.
  intros Hmn. unfold ci_pop.
  induction d as [|[k v] d IH]; simpl; [reflexivity|].
  destruct (same_name k m) eqn:Hkm; simpl.
  - by rewrite (same_name_trans_false _ _ _ Hkm Hmn).
  - by rewrite IH.
Qed.

Lemma ci_get_pop_same (name m : string) (d : dict) :
  same_name m name = true -> ci_get name (ci_pop m d) = None.
Proof.
  intros Hmn. unfold ci_pop.
  induction d as [|[k v] d IH]; simpl; [reflexivity|].
  destruct (same_name k m) eqn:Hkm; simpl; [exact IH|].
  destruct (same_name k name) eqn:Hkn; [|exact IH].
  rewrite same_name_sym in Hmn.
  by rewrite (same_name_trans _ _ _ Hkn Hmn) in Hkm.
Qed.


(* ===================================================================== *)
(** ** The first request of a call and what follows it *)
(* ===================================================================== *)

Section FirstRequest.

Variable env : Env.
Variable wire : Request -> nat -> wire_result.
Variable loads : string -> option json.
Variable default_headers : dict.
Variable str : exn -> string.

(** An answer whose status is not a redirect status ends [Session.send]. *)
Lemma resolve_redirects_final (s : Session) (hops_left : nat) (j_inner j : jar)
    (sent : nat) (req : Request) (resp : Response) :
  status resp ∉ REDIRECT_STATI ->
  (resolve_redirects env wire s hops_left j_inner j sent req resp).1
  = match read_fault_of resp with
    | Some f => W_raise (Exn (read_fault_class f) (ArgsBody f))
    | None => W_ret resp
    end.
Proof.
  intros Hstatus.
  assert (Ht : get_redirect_target env resp = Return None).
  { unfold get_redirect_target. by rewrite (bool_decide_eq_false_2 _ Hstatus). }
  destruct hops_left; simpl; rewrite Ht; by destruct (read_fault_of resp).
Qed.

(** The GET of a call starts with the sending of its first request through
    the adapter of that request's URL; when that raises, or ends on an
    answer that is not a redirect, nothing follows. *)
Lemma get_of_call_first_send (self : CustomSession) (url : string)
    (params : option dict) (req0 : Request) (a : HTTPAdapter) :
  first_request env self url params = Return req0 ->
  get_adapter (session self) (req_url req0) = Return a ->
  let c := HTTPAdapter_send env wire a 0 req0 in
  (exists rest, (get_of_call env wire self url params).1 = c.1 ++ rest)
  /\ match c.2 with
     | Raise e => get_of_call env wire self url params = c
     | Return resp =>
         status resp ∉ REDIRECT_STATI ->
         get_of_call env wire self url params
         = (c.1, match read_fault_of resp with
                 | Some f => Raise (Exn (read_fault_class f) (ArgsBody f))
                 | None => Return resp
                 end)
     end.
Proof.
  intros Hprep Ha c. subst c.
  unfold get_of_call, Session_get, Session_request.
  unfold first_request in Hprep. rewrite Hprep.
  unfold send_once. rewrite Ha.
  destruct (HTTPAdapter_send env wire a 0 req0) as [evs [resp|e]]; simpl.
  - split.
    + destruct (resolve_redirects _ _ _ _ _ _ _ _ _) as [[evs' o] j']. by eexists.
    + intros Hstatus.
      pose proof (resolve_redirects_final (session self) max_redirects
                    (extract_cookies_to_jar env (cookies (session self)) req0 resp)
                    (extract_cookies_to_jar env (cookies (session self)) req0 resp)
                    (length (sends evs)) req0 resp Hstatus) as Hfin.
      destruct (resolve_redirects _ _ _ _ _ _ _ _ _) as [[evs' o] j']. simpl in *.
      destruct (read_fault_of resp); injection Hfin as -> ->; by rewrite app_nil_r.
  - split; [exists []; by rewrite app_nil_r | reflexivity].
Qed.

(** When the request cannot be prepared, the GET raises without events. *)
Lemma get_of_call_unprepared (self : CustomSession) (url : string)
    (params : option dict) (e : exn) :
  first_request env self url params = Raise e ->
  get_of_call env wire self url params = ([], Raise e).
Proof.
  intros Hprep. unfold get_of_call, Session_get, Session_request.
  unfold first_request in Hprep. by rewrite Hprep.
Qed.


(** The outcome of a call, read off the outcome of its GET. *)
Lemma hit_and_get_data_outcome (url : string) (params : option dict)
    (self : CustomSession) :
  0 <= delay self ->
  let r := hit_and_get_data env wire loads str url params self in
  let finish (msg : string) :=
    match stdout_write env msg with
    | None => prints (events r) = [msg] /\ result r = Return empty_dict
    | Some c => prints (events r) = [] /\ result r = Raise (Exn c (ArgsMsg msg))
    end in
  match (get_of_call env wire self url params).2 with
  | Raise err => finish (connect_message str url err)
  | Return response =>
      let text := response_text env response in
      match loads_fault env text with
      | Some f =>
          finish (connect_message str url (Exn (json_fault_class f) (ArgsDoc text)))
      | None =>
          match loads text with
          | Some parsed => prints (events r) = [] /\ result r = Return parsed
          | None => finish (decode_message url)
          end
      end
  end.
Proof.
  intros Hdelay r finish. subst r finish. rewrite hit_and_get_data_run.
  destruct (Z.ltb_spec (delay self) 0) as [?|_]; [lia|]. cbv zeta.
  pose proof (get_of_call_events env wire self url params) as (_ & Hprints & _).
  destruct (get_of_call env wire self url params) as [evs [response|err]];
    simpl in *; unfold diagnose.
  - destruct (loads_fault env _).
    + destruct (stdout_write env _); simpl; by rewrite ?prints_app, Hprints.
    + destruct (loads _); simpl; [done|].
      destruct (stdout_write env _); simpl; by rewrite ?prints_app, Hprints.
  - destruct (stdout_write env _); simpl; by rewrite ?prints_app, Hprints.
Qed.

(** What a call leaves of the object: the stored headers, the delay, and the
    session up to its cookie jar. *)
Lemma hit_and_get_data_frame (url : string) (params : option dict) (self : CustomSession) :
  let self' := self_after (hit_and_get_data env wire loads str url params self) in
  headers self' = headers self
  /\ delay self' = delay self
  /\ adapters (session self') = adapters (session self)
  /\ timeout (session self') = timeout (session self)
  /\ s_headers (session self') = s_headers (session self).
Proof.
  rewrite hit_and_get_data_run. unfold diagnose.
  destruct (delay self <? 0); [by destruct (stdout_write env _)|]. cbv zeta.
  destruct (get_of_call env wire self url params) as [evs [response|e]].
  - destruct (loads_fault env _); [by destruct (stdout_write env _)|].
    destruct (loads _); [done|]. by destruct (stdout_write env _).
  - by destruct (stdout_write env _).
Qed.

End FirstRequest.

(* ===================================================================== *)
(** ** The retry loop, transmission by transmission *)
(* ===================================================================== *)

Section RetryFacts.

Variable env : Env.
Variable wire : Request -> nat -> wire_result.

(** A response off the force list and without [Retry-After] is never
    retried. *)
Lemma is_retry_final (r : Retry) (remaining : nat) (response : Response) :
  status response ∉ status_forcelist r ->
  ci_get "Retry-After" (resp_headers response) = None ->
  is_retry r remaining response = false.
Proof.
  intros Hstatus Hafter. unfold is_retry, has_retry_after. rewrite Hafter.
  rewrite (bool_decide_eq_false_2 _ Hstatus). by rewrite andb_false_r.
Qed.

Lemma is_retry_forced (r : Retry) (remaining : nat) (response : Response) :
  status response ∈ status_forcelist r -> is_retry r remaining response = true.
Proof. intros H. unfold is_retry. by rewrite (bool_decide_eq_true_2 _ H). Qed.

(** [Retry.sleep] without a [Retry-After] header: the back-off, when it is
    positive. *)
Lemma Retry_sleep_plain (r : Retry) (n : nat) (response : option Response) :
  (response ≫= (fun resp => ci_get "Retry-After" (resp_headers resp))) = None ->
  Retry_sleep env r n response
  = ((if get_backoff_time r n <=? 0 then [] else [EvRetrySleep (get_backoff_time r n)]),
     Return tt).
Proof.
  intros Hnone. unfold Retry_sleep. rewrite Hnone.
  by destruct (get_backoff_time r n <=? 0).
Qed.


(** [Retry.sleep] returns when the [Retry-After] header, if any, can be
    parsed. *)
Lemma Retry_sleep_returns (r : Retry) (n : nat) (res : wire_result) :
  retry_after_ok env res ->
  exists evs,
    Retry_sleep env r n (match res with WireResp resp => Some resp | WireFail _ => None end)
    = (evs, Return tt)
    /\ sends evs = [].
Proof.
  intros Hok. unfold Retry_sleep. destruct res as [e|response]; simpl in *.
  - destruct (get_backoff_time r n <=? 0); by eexists.
  - destruct (ci_get "Retry-After" (resp_headers response)) as [raw|].
    + destruct Hok as [secs ->].
      destruct (Z.max 0 secs =? 0), (get_backoff_time r n <=? 0); by eexists.
    + destruct (get_backoff_time r n <=? 0); by eexists.
Qed.

(** An answer that is not retried ends the loop. *)
Lemma urlopen_answer (r : Retry) (req : Request) (remaining history sent : nat)
    (response : Response) :
  wire req sent = WireResp response ->
  is_retry r remaining response = false ->
  urlopen env wire r remaining history sent req = ([EvSend req], Return response).
Proof.
  intros Hwire Hretry. rewrite urlopen_unfold, Hwire, Hretry. reflexivity.
Qed.

(** One retried transmission, followed by the rest of the loop. *)
Lemma urlopen_retried (r : Retry) (req : Request) (remaining history sent : nat)
    (evs : list event) :
  read_retry r = true ->
  retried_by r (wire req sent) ->
  Retry_sleep env r (S history)
    (match wire req sent with WireResp resp => Some resp | WireFail _ => None end)
  = (evs, Return tt) ->
  urlopen env wire r (S remaining) history sent req
  = (EvSend req :: evs ++ (urlopen env wire r remaining (S history) (S sent) req).1,
     (urlopen env wire r remaining (S history) (S sent) req).2).
Proof.
  intros Hread Hnow Hsleep. rewrite (urlopen_unfold env wire r (S remaining)).
  destruct (wire req sent) as [e|response]; simpl in *.
  - rewrite Hread, andb_false_r, Hsleep; simpl.
    by destruct (urlopen env wire r remaining (S history) (S sent) req).
  - rewrite (is_retry_forced _ _ _ Hnow), Hsleep; simpl.
    by destruct (urlopen env wire r remaining (S history) (S sent) req).
Qed.


(** When every transmission is retried, the loop transmits [remaining + 1]
    times and gives up with [MaxRetryError], whose reason is that of the
    last transmission. *)
Lemma urlopen_exhausts (r : Retry) (req : Request) :
  read_retry r = true ->
  (forall n, retried_by r (wire req n) /\ retry_after_ok env (wire req n)) ->
  forall remaining history sent : nat,
    sends (urlopen env wire r remaining history sent req).1 = replicate (S remaining) req
    /\ (urlopen env wire r remaining history sent req).2
       = Raise (MaxRetryError (reason_of (wire req (sent + remaining)%nat))).
Proof.
  intros Hread Hfail remaining.
  induction remaining as [|remaining IH]; intros history sent;
    destruct (Hfail sent) as [Hnow Hra].
  - rewrite urlopen_unfold, Nat.add_0_r.
    destruct (wire req sent) as [e|response]; simpl in *.
    + by rewrite Hread, andb_false_r.
    + by rewrite (is_retry_forced _ _ _ Hnow).
  - destruct (Retry_sleep_returns r (S history) _ Hra) as (evs & Hsleep & Hs).
    rewrite (urlopen_retried r req remaining history sent evs Hread Hnow Hsleep).
    destruct (IH (S history) (S sent)) as (Hsends & Hraise).
    simpl. rewrite sends_app, Hs, Hsends, Hraise.
    by replace (sent + S remaining)%nat with (S sent + remaining)%nat by lia.
Qed.



End RetryFacts.

(* ===================================================================== *)
(** ** The verdict of a call *)
(* ===================================================================== *)




(** What [__init__] builds is configured, and a call keeps it so. *)
Lemma configured_init (default_headers : dict) (hs : option dict) :
  configured (__init__ default_headers hs).
Proof. split; reflexivity. Qed.

Lemma configured_after (env : Env) (wire : Request -> nat -> wire_result)
    (loads : string -> option json) (str : exn -> string)
    (url : string) (params : option dict) (self : CustomSession) :
  configured self ->
  configured (self_after (hit_and_get_data env wire loads str url params self)).
Proof.
  intros [Hads Hdelay].
  destruct (hit_and_get_data_frame env wire loads str url params self)
    as (_ & Hd & Ha & _).
  split; congruence.
Qed.


(* ===================================================================== *)
(** ** Errors and diagnostics *)
(* ===================================================================== *)





(* ===================================================================== *)
(** ** The returned value *)
(* ===================================================================== *)

(** C2.  When the GET of a call hands back a response whose text
    [json.loads] accepts, the call returns the parsed value as it is and
    prints nothing. *)
Theorem hit_and_get_data_returns_parsed_body
    (env : Env) (wire : Request -> nat -> wire_result)
    (loads : string -> option json) (str : exn -> string)
    (url : string) (params : option dict) (self : CustomSession)
    (response : Response) (parsed : json) :
  0 <= delay self ->
  (get_of_call env wire self url params).2 = Return response ->
  loads_fault env (response_text env response) = None ->
  loads (response_text env response) = Some parsed ->
  let r := hit_and_get_data env wire loads str url params self in
  result r = Return parsed /\ prints (events r) = [].
Proof.
  intros Hdelay Hget Hfault Hloads r. subst r.
  pose proof (hit_and_get_data_outcome env wire loads str url params self Hdelay) as H.
  cbv zeta in H. rewrite Hget, Hfault, Hloads in H. by destruct H.
Qed.

Lemma hit_and_get_data_returns_parsed_body_witness :
  let r := hit_and_get_data Stub.env (Stub.always 200 "[1]") Stub.loads Stub.str
             "https://example.test/data" None (__init__ [] None) in
  result r = Return (JArr [JInt 1]) /\ prints (events r) = [].
Proof.
  apply (hit_and_get_data_returns_parsed_body Stub.env (Stub.always 200 "[1]")
           Stub.loads Stub.str "https://example.test/data" None (__init__ [] None)
           (Stub.answer 200 [] "[1]") (JArr [JInt 1])).
  - simpl. lia.
  - vm_compute. reflexivity.
  - reflexivity.
  - reflexivity.
Defined.

(** C2, refuted as worded: an [https://] URL whose endpoint answers 403 with
    the well-formed JSON body [[1]] is transmitted four times, after which
    the call returns the empty mapping, not the parse of the body. *)
Lemma json_body_of_retried_status_lost :
  let r := hit_and_get_data Stub.env (Stub.always 403 "[1]") Stub.loads Stub.str
             "https://example.test/data" None (__init__ [] None) in
  Stub.loads "[1]" = Some (JArr [JInt 1])
  /\ length (sends (events r)) = 4%nat
  /\ result r = Return empty_dict.
Proof. vm_compute. repeat split. Qed.




(* ===================================================================== *)
(** ** Which adapter, which headers *)
(* ===================================================================== *)

(** A URL that starts with [http://] does not start with [https://]. *)
Lemma http_not_https (u : string) :
  startswith u "http://" = true -> startswith u "https://" = false.
Proof.
  unfold startswith.
  destruct u as [|c1 [|c2 [|c3 [|c4 [|c5 u]]]]]; simpl;
    repeat match goal with
           | |- context [ascii_dec ?a ?b] => destruct (ascii_dec a b)
           end;
    try done; congruence.
Qed.

(** The adapter that serves a prepared URL on a configured wrapper. *)
Lemma get_adapter_https (self : CustomSession) (u : string) :
  configured self ->
  startswith (lower u) "https://" = true ->
  get_adapter (session self) u = Return {| max_retries := retries |}.
Proof.
  intros [Hads _] Hs. rewrite (get_adapter_init _ _ Hads). by rewrite Hs.
Qed.

Lemma get_adapter_http (self : CustomSession) (u : string) :
  configured self ->
  startswith (lower u) "http://" = true ->
  get_adapter (session self) u = Return default_adapter.
Proof.
  intros [Hads _] Hs. rewrite (get_adapter_init _ _ Hads).
  by rewrite (http_not_https _ Hs), Hs.
Qed.



(* ===================================================================== *)
(** ** The retry loop inside a call *)
(* ===================================================================== *)

Section CallFacts.

Variable env : Env.
Variable wire : Request -> nat -> wire_result.
Variable loads : string -> option json.
Variable str : exn -> string.

(** When every transmission is retried after the back-off, the events of the
    loop are its transmissions with the waits between them. *)
Lemma urlopen_backoff_trace (r : Retry) (req : Request) :
  read_retry r = true ->
  (forall n, retried_by r (wire req n) /\ without_retry_after (wire req n)) ->
  forall remaining history sent : nat,
    (urlopen env wire r remaining history sent req).1
    = backoff_trace r req history remaining.
Proof.
  intros Hread Hfail remaining.
  induction remaining as [|remaining IH]; intros history sent;
    destruct (Hfail sent) as [Hnow Hplain].
  - rewrite urlopen_unfold.
    destruct (wire req sent) as [e|response]; simpl in *.
    + by rewrite Hread, andb_false_r.
    + by rewrite (is_retry_forced _ _ _ Hnow).
  - rewrite (urlopen_retried env wire r req remaining history sent
               (if get_backoff_time r (S history) <=? 0 then []
                else [EvRetrySleep (get_backoff_time r (S history))]) Hread Hnow).
    + simpl. by rewrite IH.
    + apply Retry_sleep_plain. by destruct (wire req sent).
Qed.

(** Without a [Retry-After] header there is nothing to parse. *)
Lemma without_retry_after_ok (res : wire_result) :
  without_retry_after res -> retry_after_ok env res.
Proof. destruct res as [e|response]; simpl; [done|]. by intros ->. Qed.

(** The GET of a call to an [https://] URL is the retry loop of the
    configured policy on the prepared request, as long as that loop raises
    or ends on an answer that is not a redirect. *)
Lemma get_of_call_https (self : CustomSession) (url : string)
    (params : option dict) (req0 : Request) :
  configured self ->
  first_request env self url params = Return req0 ->
  startswith (lower (req_url req0)) "https://" = true ->
  connection_fault env req0 = None ->
  let c := W_map_exn translate (urlopen env wire retries 3 0 0 req0) in
  (exists rest, (get_of_call env wire self url params).1 = c.1 ++ rest)
  /\ match c.2 with
     | Raise e => get_of_call env wire self url params = c
     | Return resp =>
         status resp ∉ REDIRECT_STATI ->
         get_of_call env wire self url params
         = (c.1, match read_fault_of resp with
                 | Some f => Raise (Exn (read_fault_class f) (ArgsBody f))
                 | None => Return resp
                 end)
     end.
Proof.
  intros Hconf Hprep Hs Hconn.
  pose proof (get_of_call_first_send env wire self url params req0
                {| max_retries := retries |} Hprep (get_adapter_https _ _ Hconf Hs)) as H.
  unfold HTTPAdapter_send in H. rewrite Hconn in H. exact H.
Qed.

(** The same for an [http://] URL: the loop of the default adapter, which
    has no retry. *)
Lemma get_of_call_http (self : CustomSession) (url : string)
    (params : option dict) (req0 : Request) :
  configured self ->
  first_request env self url params = Return req0 ->
  startswith (lower (req_url req0)) "http://" = true ->
  connection_fault env req0 = None ->
  let c := W_map_exn translate
             (urlopen env wire (max_retries default_adapter) 0 0 0 req0) in
  (exists rest, (get_of_call env wire self url params).1 = c.1 ++ rest)
  /\ match c.2 with
     | Raise e => get_of_call env wire self url params = c
     | Return resp =>
         status resp ∉ REDIRECT_STATI ->
         get_of_call env wire self url params
         = (c.1, match read_fault_of resp with
                 | Some f => Raise (Exn (read_fault_class f) (ArgsBody f))
                 | None => Return resp
                 end)
     end.
Proof.
  intros Hconf Hprep Hs Hconn.
  pose proof (get_of_call_first_send env wire self url params req0
                default_adapter Hprep (get_adapter_http _ _ Hconf Hs)) as H.
  unfold HTTPAdapter_send in H. rewrite Hconn in H. exact H.
Qed.


End CallFacts.

(* ===================================================================== *)
(** ** The retry policy *)
(* ===================================================================== *)




(** C5.  A call whose prepared URL starts with [https://], whose request can
    be sent, and whose every transmission fails or is answered with a status
    of the force list, without [Retry-After]: the events of the call are the
    delay, the first transmission, the first retry at once, the second retry
    after [2 * 2^(2-1) = 4] seconds and the third after [2 * 2^(3-1) = 8]
    seconds; diagnostics follow. *)
Theorem first_retry_at_once_then_backoff
    (env : Env) (wire : Request -> nat -> wire_result)
    (loads : string -> option json) (str : exn -> string)
    (self : CustomSession) (url : string) (params : option dict) (req0 : Request) :
  configured self ->
  first_request env self url params = Return req0 ->
  startswith (lower (req_url req0)) "https://" = true ->
  connection_fault env req0 = None ->
  (forall n, retried_by retries (wire req0 n) /\ without_retry_after (wire req0 n)) ->
  let r := hit_and_get_data env wire loads str url params self in
  exists diagnostics,
    events r
    = [EvSleep 1;
       EvSend req0;
       EvSend req0;
       EvRetrySleep (backoff_factor retries * 2 ^ (2 - 1));
       EvSend req0;
       EvRetrySleep (backoff_factor retries * 2 ^ (3 - 1));
       EvSend req0] ++ diagnostics
    /\ sends diagnostics = []
    /\ retry_sleeps diagnostics = []
    /\ backoff_factor retries = 2.
Proof.
  intros Hconf Hprep Hs Hconn Hfail r. subst r.
  assert (Hok : forall n,
             retried_by retries (wire req0 n) /\ retry_after_ok env (wire req0 n)).
  { intros n. destruct (Hfail n). split; [done|]. by apply without_retry_after_ok. }
  destruct (get_of_call_https env wire self url params req0 Hconf Hprep Hs Hconn) as [_ H].
  destruct (urlopen_exhausts env wire retries req0 eq_refl Hok 3 0 0)%nat as [_ Hraise].
  rewrite (W_map_exn_raise translate _ _ Hraise) in H.
  destruct (hit_and_get_data_events env wire loads str url params self)
    as (diagnostics & Hev & Hsd & _ & Hrd & _); [destruct Hconf as [_ ->]; lia|].
  exists diagnostics. rewrite Hev, H, W_map_exn_events.
  rewrite (urlopen_backoff_trace env wire retries req0 eq_refl Hfail).
  destruct Hconf as [_ ->]. done.
Qed.

Lemma first_retry_at_once_then_backoff_witness :
  let req0 := {| req_url := "https://example.test/data"; req_headers := [];
                 req_timeout := None |} in
  let r := hit_and_get_data Stub.env Stub.unreachable Stub.loads Stub.str
             "https://example.test/data" None (__init__ [] None) in
  exists diagnostics,
    events r
    = [EvSleep 1;
       EvSend req0;
       EvSend req0;
       EvRetrySleep (backoff_factor retries * 2 ^ (2 - 1));
       EvSend req0;
       EvRetrySleep (backoff_factor retries * 2 ^ (3 - 1));
       EvSend req0] ++ diagnostics
    /\ sends diagnostics = []
    /\ retry_sleeps diagnostics = []
    /\ backoff_factor retries = 2.
Proof.
  apply (first_retry_at_once_then_backoff Stub.env Stub.unreachable Stub.loads Stub.str
           (__init__ [] None) "https://example.test/data" None).
  - split; reflexivity.
  - reflexivity.
  - reflexivity.
  - reflexivity.
  - intros n. split; exact I.
Defined.

(** C5, refuted as worded: behind an [https://] URL that answers 503 to every
    transmission, the call makes its three retries with two waits only, of 4
    and 8 seconds, where the formula gives 2, 4 and 8: the first retry is not
    waited for.  And when the 503 carries [Retry-After: 5], the three waits
    are of 5 seconds each, not increasing. *)
Lemma first_retry_not_delayed :
  let r1 := hit_and_get_data Stub.env (Stub.always 503 "busy") Stub.loads Stub.str
              "https://example.test/data" None (__init__ [] None) in
  let r2 := hit_and_get_data Stub.env (Stub.come_back_later 503 "5" "busy")
              Stub.loads Stub.str "https://example.test/data" None (__init__ [] None) in
  length (sends (events r1)) = 4%nat
  /\ retry_sleeps (events r1) = [4; 8]
  /\ retry_sleeps (events r1) <> [2 * 2 ^ (1 - 1); 2 * 2 ^ (2 - 1); 2 * 2 ^ (3 - 1)]
  /\ retry_sleeps (events r2) = [5; 5; 5].
Proof. vm_compute. repeat split. discriminate. Qed.

(* ===================================================================== *)
(** ** The configuration and the requests *)
(* ===================================================================== *)




(* ===================================================================== *)
(** ** Further properties of a call *)
(* ===================================================================== *)

Section MoreFacts.

Variable env : Env.
Variable wire : Request -> nat -> wire_result.
Variable loads : string -> option json.
Variable str : exn -> string.

(** Putting back the cookie jar the session already has changes nothing. *)
Lemma with_jar_same (self : CustomSession) :
  with_jar (cookies (session self)) self = self.
Proof. by destruct self as [[] ? ?]. Qed.

(** A retry loop without budget transmits once. *)
Lemma urlopen_no_budget (r : Retry) (history sent : nat) (req : Request) :
  (urlopen env wire r 0 history sent req).1 = [EvSend req].
Proof.
  rewrite urlopen_unfold. destruct (wire req sent) as [e|response]; simpl.
  - by destruct (is_read_error e && negb (read_retry r)).
  - by destruct (is_retry r 0 response).
Qed.

(** The response a retry loop without budget returns is the answer to its
    only transmission. *)
Lemma urlopen_no_budget_returns (r : Retry) (history sent : nat) (req : Request)
    (resp : Response) :
  (urlopen env wire r 0 history sent req).2 = Return resp ->
  wire req sent = WireResp resp.
Proof.
  rewrite urlopen_unfold. destruct (wire req sent) as [e|response]; simpl.
  - by destruct (is_read_error e && negb (read_retry r)).
  - destruct (is_retry r 0 response); simpl; [done|]. by intros [= ->].
Qed.

(** A call whose GET hands back a response that decodes. *)
Lemma call_of_decoded_response (self : CustomSession) (url : string)
    (params : option dict) (evs : list event) (response : Response) (parsed : json) :
  0 <= delay self ->
  get_of_call env wire self url params = (evs, Return response) ->
  loads_fault env (response_text env response) = None ->
  loads (response_text env response) = Some parsed ->
  let r := hit_and_get_data env wire loads str url params self in
  result r = Return parsed
  /\ sends (events r) = sends evs
  /\ retry_sleeps (events r) = retry_sleeps evs
  /\ prints (events r) = [].
Proof.
  intros Hdelay Hget Hfault Hloads r. subst r.
  pose proof (hit_and_get_data_outcome env wire loads str url params self Hdelay) as H.
  destruct (hit_and_get_data_sends env wire loads str url params self Hdelay)
    as (Hsends & _ & Hwaits & _).
  cbv zeta in H. rewrite Hget in H, Hsends, Hwaits. simpl in H.
  rewrite Hfault, Hloads in H. by destruct H.
Qed.

End MoreFacts.

(** X1.  The status code is not looked at: on a configured wrapper, a first
    answer to an [http://] or [https://] URL whose status is off the force
    list, that is no redirect and has no [Retry-After] (a 404, say), is
    decoded and returned like a 200, after one transmission and without
    diagnostic. *)
Theorem status_not_checked
    (env : Env) (wire : Request -> nat -> wire_result)
    (loads : string -> option json) (str : exn -> string)
    (self : CustomSession) (url : string) (params : option dict)
    (req0 : Request) (response : Response) (parsed : json) :
  configured self ->
  first_request env self url params = Return req0 ->
  startswith (lower (req_url req0)) "https://" = true
  \/ startswith (lower (req_url req0)) "http://" = true ->
  connection_fault env req0 = None ->
  wire req0 0%nat = WireResp response ->
  status response ∉ status_forcelist retries ->
  final_answer response ->
  loads_fault env (response_text env response) = None ->
  loads (response_text env response) = Some parsed ->
  let r := hit_and_get_data env wire loads str url params self in
  result r = Return parsed
  /\ sends (events r) = [req0]
  /\ prints (events r) = [].
Proof.
  intros Hconf Hprep Hscheme Hconn Hwire Hstatus (Hafter & Hredirect & Hread)
    Hfault Hloads r. subst r.
  assert (Hdelay : 0 <= delay self) by (destruct Hconf as [_ ->]; lia).
  assert (Hget : get_of_call env wire self url params
                 = ([EvSend req0], Return response)).
  { destruct Hscheme as [Hs|Hs].
    - destruct (get_of_call_https env wire self url params req0 Hconf Hprep Hs Hconn)
        as [_ H].
      rewrite (urlopen_answer env wire retries req0 3 0 0 response Hwire) in H
        by (by apply is_retry_final).
      simpl in H. rewrite Hread in H. by apply H.
    - destruct (get_of_call_http env wire self url params req0 Hconf Hprep Hs Hconn)
        as [_ H].
      rewrite (urlopen_answer env wire (max_retries default_adapter) req0 0 0 0
                 response Hwire) in H
        by (apply is_retry_final; [apply not_elem_of_nil | done]).
      simpl in H. rewrite Hread in H. by apply H. }
  destruct (call_of_decoded_response env wire loads str self url params _ _ _
              Hdelay Hget Hfault Hloads) as (Hres & Hsends & _ & Hprints).
  done.
Qed.

Lemma status_not_checked_witness :
  let req0 := {| req_url := "http://example.test/missing"; req_headers := [];
                 req_timeout := None |} in
  let r := hit_and_get_data Stub.env (Stub.always 404 "{}") Stub.loads Stub.str
             "http://example.test/missing" None (__init__ [] None) in
  result r = Return (JObj [])
  /\ sends (events r) = [req0]
  /\ prints (events r) = [].
Proof.
  apply (status_not_checked Stub.env (Stub.always 404 "{}") Stub.loads Stub.str
           (__init__ [] None) "http://example.test/missing" None
           {| req_url := "http://example.test/missing"; req_headers := [];
              req_timeout := None |}
           (Stub.answer 404 [] "{}") (JObj [])).
  - split; reflexivity.
  - reflexivity.
  - right. reflexivity.
  - reflexivity.
  - reflexivity.
  - apply (bool_decide_unpack _). reflexivity.
  - split; [reflexivity|]. split; [|reflexivity].
    apply (bool_decide_unpack _). reflexivity.
  - reflexivity.
  - reflexivity.
Defined.



(** X4.  Behind [http://] nothing is retried: when the first answer, if
    there is one, is no redirect, the request is transmitted exactly once
    and no retry wait is made, whatever the failure or the status. *)
Theorem http_never_retried
    (env : Env) (wire : Request -> nat -> wire_result)
    (loads : string -> option json) (str : exn -> string)
    (self : CustomSession) (url : string) (params : option dict) (req0 : Request) :
  configured self ->
  first_request env self url params = Return req0 ->
  startswith (lower (req_url req0)) "http://" = true ->
  connection_fault env req0 = None ->
  (forall response, wire req0 0%nat = WireResp response ->
                    status response ∉ REDIRECT_STATI) ->
  let r := hit_and_get_data env wire loads str url params self in
  sends (events r) = [req0] /\ retry_sleeps (events r) = [].
Proof.
  intros Hconf Hprep Hs Hconn Hfirst r. subst r.
  assert (Hdelay : 0 <= delay self) by (destruct Hconf as [_ ->]; lia).
  destruct (get_of_call_http env wire self url params req0 Hconf Hprep Hs Hconn)
    as [_ H].
  destruct (hit_and_get_data_sends env wire loads str url params self Hdelay)
    as (Hsends & _ & Hwaits & _).
  pose proof (urlopen_no_budget env wire (max_retries default_adapter) 0 0 req0) as Hev.
  pose proof (urlopen_no_budget_returns env wire (max_retries default_adapter) 0 0 req0)
    as Hret.
  destruct (urlopen env wire (max_retries default_adapter) 0 0 0 req0)
    as [evs [resp|e]]; simpl in *; subst evs.
  - rewrite (H (Hfirst resp (Hret resp eq_refl))) in Hsends, Hwaits. done.
  - rewrite H in Hsends, Hwaits. done.
Qed.

Lemma http_never_retried_witness :
  let req0 := {| req_url := "http://example.test/data"; req_headers := [];
                 req_timeout := None |} in
  let r := hit_and_get_data Stub.env (Stub.always 503 "busy") Stub.loads Stub.str
             "http://example.test/data" None (__init__ [] None) in
  sends (events r) = [req0] /\ retry_sleeps (events r) = [].
Proof.
  apply (http_never_retried Stub.env (Stub.always 503 "busy") Stub.loads Stub.str
           (__init__ [] None) "http://example.test/data" None).
  - split; reflexivity.
  - reflexivity.
  - reflexivity.
  - reflexivity.
  - intros response [= <-]. apply (bool_decide_unpack _). reflexivity.
Defined.



(** X3.  When the request cannot be prepared (a URL without scheme or
    without host, an invalid header value), nothing is transmitted: after
    the delay the call reports the error of the preparation through the
    second handler, leaving the object as it was. *)
Theorem unprepared_request_sends_nothing
    (env : Env) (wire : Request -> nat -> wire_result)
    (loads : string -> option json) (str : exn -> string)
    (self : CustomSession) (url : string) (params : option dict) (e : exn) :
  0 <= delay self ->
  first_request env self url params = Raise e ->
  let r := hit_and_get_data env wire loads str url params self in
  r = diagnose env (connect_message str url e) [EvSleep (delay self)] self
  /\ sends (events r) = [].
Proof.
  intros Hdelay Hprep r. subst r.
  destruct (hit_and_get_data_sends env wire loads str url params self Hdelay)
    as (Hsends & _).
  pose proof (get_of_call_unprepared env wire self url params e Hprep) as Hget.
  split; [|by rewrite Hsends, Hget].
  rewrite hit_and_get_data_run.
  destruct (Z.ltb_spec (delay self) 0) as [?|_]; [lia|]. cbv zeta.
  rewrite Hget.
  assert (jar_of_call env wire self url params = cookies (session self)) as ->.
  { unfold jar_of_call, Session_get, Session_request.
    unfold first_request in Hprep. by rewrite Hprep. }
  by rewrite with_jar_same.
Qed.

Lemma unprepared_request_sends_nothing_witness :
  let self := __init__ [] None in
  let r := hit_and_get_data Stub.env (Stub.always 200 "[1]") Stub.loads Stub.str
             "example.test/data" None self in
  r = Run [EvSleep 1;
           EvPrint "Error in connecting to URL: example.test/data | Error: Connection failed"]
          self (Return empty_dict)
  /\ sends (events r) = [].
Proof.
  apply (unprepared_request_sends_nothing Stub.env (Stub.always 200 "[1]") Stub.loads
           Stub.str (__init__ [] None) "example.test/data" None
           (Exn MissingSchema (ArgsUrl "example.test/data"))).
  - simpl. lia.
  - reflexivity.
Defined.

(** X9.  With a negative [delay], [time.sleep] raises [ValueError] inside
    the [try]: the call neither sleeps nor transmits, and reports the error
    through the second handler, leaving the object as it was. *)
Theorem negative_delay_sends_nothing
    (env : Env) (wire : Request -> nat -> wire_result)
    (loads : string -> option json) (str : exn -> string)
    (self : CustomSession) (url : string) (params : option dict) :
  delay self < 0 ->
  let r := hit_and_get_data env wire loads str url params self in
  r = diagnose env
        (connect_message str url (Exn ValueError (ArgsSleep (delay self)))) [] self
  /\ sends (events r) = [] /\ sleeps (events r) = [].
Proof.
  intros Hdelay r. subst r. rewrite hit_and_get_data_run.
  destruct (Z.ltb_spec (delay self) 0) as [_|?]; [|lia].
  unfold diagnose. by destruct (stdout_write env _).
Qed.

Lemma negative_delay_sends_nothing_witness :
  let self := Stub.with_delay (-1) (__init__ [] None) in
  let r := hit_and_get_data Stub.env (Stub.always 200 "[1]") Stub.loads Stub.str
             "https://example.test/data" None self in
  r = Run [EvPrint "Error in connecting to URL: https://example.test/data | Error: Connection failed"]
          self (Return empty_dict)
  /\ sends (events r) = [] /\ sleeps (events r) = [].
Proof.
  apply (negative_delay_sends_nothing Stub.env (Stub.always 200 "[1]") Stub.loads
           Stub.str (Stub.with_delay (-1) (__init__ [] None))
           "https://example.test/data" None).
  simpl. lia.
Defined.







(* ===================================================================== *)
(** ** Redirects *)
(* ===================================================================== *)

Section RedirectFacts.

Variable env : Env.
Variable wire : Request -> nat -> wire_result.

(** One exchange transmits at most once more than the largest retry budget
    among the adapters. *)
Lemma send_once_bound (s : Session) (j : jar) (sent : nat) (req : Request)
    (budget : nat) :
  (forall u a, get_adapter s u = Return a -> (total (max_retries a) <= budget)%nat) ->
  let evs := (send_once env wire s j sent req).1.1 in
  (length (sends evs) <= S budget)%nat /\ (length (retry_sleeps evs) <= budget)%nat.
Proof.
  intros Hbudget. unfold send_once.
  destruct (get_adapter s (req_url req)) as [a|e] eqn:Ha; simpl; [|lia].
  pose proof (HTTPAdapter_send_events env wire a sent req) as (_ & _ & _ & H1 & H2).
  specialize (Hbudget _ _ Ha).
  destruct (HTTPAdapter_send env wire a sent req) as [evs [resp|e]]; simpl in *; lia.
Qed.

(** Following redirects makes at most one exchange per hop left. *)
Lemma resolve_redirects_bound (s : Session) (budget : nat) :
  (forall u a, get_adapter s u = Return a -> (total (max_retries a) <= budget)%nat) ->
  forall (hops_left : nat) (j_inner j : jar) (sent : nat) (req : Request)
         (resp : Response),
    let evs := (resolve_redirects env wire s hops_left j_inner j sent req resp).1.1 in
    (length (sends evs) <= hops_left * S budget)%nat
    /\ (length (retry_sleeps evs) <= hops_left * budget)%nat.
Proof.
  intros Hbudget hops_left.
  induction hops_left as [|hops_left IH]; intros j_inner j sent req resp; simpl;
    destruct (get_redirect_target env resp) as [[location|]|e]; simpl;
    try destruct (read_fault_of resp); simpl;
    try destruct (nonempty location); simpl;
    try destruct (join_location env (req_url req) location) as [url'|]; simpl;
    try lia.
  set (req' := {| req_url := url'; req_headers := _; req_timeout := _ |}).
  pose proof (send_once_bound s j sent req' budget Hbudget) as (H1 & H2).
  destruct (send_once env wire s j sent req') as [[evs [resp'|e]] j']; simpl in *.
  - specialize (IH j' (extract_cookies_to_jar env j' req' resp')
                  (sent + length (sends evs))%nat req' resp').
    destruct (resolve_redirects _ _ _ _ _ _ _ _ _) as [[evs' o] j3]; simpl in *.
    rewrite sends_app, retry_sleeps_app, !length_app. lia.
  - lia.
Qed.

(** The whole GET: the first exchange and at most [max_redirects] hops. *)
Lemma Session_request_bound (s : Session) (budget : nat) (url : string)
    (params hdrs : option dict) (tmo : option Z) :
  (forall u a, get_adapter s u = Return a -> (total (max_retries a) <= budget)%nat) ->
  let evs := (Session_request env wire s url params hdrs tmo).1.1 in
  (length (sends evs) <= (1 + max_redirects) * S budget)%nat
  /\ (length (retry_sleeps evs) <= (1 + max_redirects) * budget)%nat.
Proof.
  intros Hbudget. unfold Session_request.
  destruct (prepare_request env s url params hdrs tmo) as [req|e]; simpl; [|lia].
  pose proof (send_once_bound s (cookies s) 0 req budget Hbudget) as (H1 & H2).
  destruct (send_once env wire s (cookies s) 0 req) as [[evs [resp|e]] j];
    simpl in *; [|lia].
  pose proof (resolve_redirects_bound s budget Hbudget max_redirects j j
                (length (sends evs)) req resp) as (R1 & R2).
  destruct (resolve_redirects _ _ _ _ _ _ _ _ _) as [[evs' o] j']; simpl in *.
  rewrite sends_app, retry_sleeps_app, !length_app. lia.
Qed.

(** The first hop of a redirect: the request for the joined URL, with the
    rewritten headers, goes through the adapter of that URL. *)
Lemma resolve_redirects_first_hop (s : Session) (hops_left : nat) (j_inner j : jar)
    (sent : nat) (req : Request) (resp : Response) (location url' : string) :
  get_redirect_target env resp = Return (Some location) ->
  read_fault_of resp = None ->
  nonempty location = true ->
  join_location env (req_url req) location = Some url' ->
  let req' := {| req_url := url';
                 req_headers := hop_headers env j (req_url req) url' (status resp)
                                            (req_headers req);
                 req_timeout := req_timeout req |} in
  match get_adapter s url' with
  | Raise e =>
      (resolve_redirects env wire s (S hops_left) j_inner j sent req resp).1
      = ([], Raise e)
  | Return a' =>
      exists rest,
        (resolve_redirects env wire s (S hops_left) j_inner j sent req resp).1.1
        = (HTTPAdapter_send env wire a' sent req').1 ++ rest
  end.
Proof.
  intros Ht Hread Hne Hjoin req'. simpl. rewrite Ht, Hread, Hne, Hjoin.
  fold req'. unfold send_once. change (req_url req') with url'.
  destruct (get_adapter s url') as [a'|e]; [|reflexivity].
  destruct (HTTPAdapter_send env wire a' sent req') as [evs [resp'|e]]; simpl.
  - destruct (resolve_redirects _ _ _ _ _ _ _ _ _) as [[evs' o] j3]. by eexists.
  - exists []. by rewrite app_nil_r.
Qed.

(** After a redirect other than 307 and 308, the next request has no
    [Content-Type]. *)
Lemma hop_headers_content_type (j : jar) (old_url new_url : string) (code : Z)
    (h : dict) :
  code ∉ [307; 308] ->
  ci_get "Content-Type" (hop_headers env j old_url new_url code h) = None.
Proof.
  intros Hcode. unfold hop_headers.
  rewrite (bool_decide_eq_false_2 _ Hcode).
  set (h1 := ci_pop "Transfer-Encoding" _).
  assert (H1 : ci_get "Content-Type" h1 = None).
  { subst h1. rewrite ci_get_pop by reflexivity. by apply ci_get_pop_same. }
  clearbody h1.
  set (h2 := match get_cookie_header env j new_url with
             | Some c => ci_set "Cookie" c (ci_pop "Cookie" h1)
             | None => ci_pop "Cookie" h1
             end).
  assert (H2 : ci_get "Content-Type" h2 = None).
  { subst h2. destruct (get_cookie_header env j new_url);
      rewrite ?ci_get_set; simpl; by rewrite ci_get_pop. }
  clearbody h2.
  set (h3 := match proxy_authorization env new_url with
             | Some v => ci_set "Proxy-Authorization" v (ci_pop "Proxy-Authorization" h2)
             | None => ci_pop "Proxy-Authorization" h2
             end).
  assert (H3 : ci_get "Content-Type" h3 = None).
  { subst h3. destruct (proxy_authorization env new_url);
      rewrite ?ci_get_set; simpl; by rewrite ci_get_pop. }
  clearbody h3.
  set (h4 := if _ && _ then ci_pop "Authorization" h3 else h3).
  assert (H4 : ci_get "Content-Type" h4 = None).
  { subst h4. destruct (_ && _); [by rewrite ci_get_pop|done]. }
  clearbody h4.
  destruct (get_netrc_auth env new_url); [|done].
  by rewrite ci_get_set.
Qed.

End RedirectFacts.

(** X10.  The footprint of a call on a configured wrapper, whatever the
    network does and whatever the URL: at most four transmissions and three
    retry waits for the first request and for each of the at most
    [max_redirects = 30] redirect hops, the delay of one second slept once,
    at most one diagnostic; the configuration and the stored headers are left
    as they were. *)
Theorem call_footprint
    (env : Env) (wire : Request -> nat -> wire_result)
    (loads : string -> option json) (str : exn -> string)
    (self : CustomSession) (url : string) (params : option dict) :
  configured self ->
  let r := hit_and_get_data env wire loads str url params self in
  (length (sends (events r)) <= (1 + max_redirects) * 4)%nat
  /\ (length (retry_sleeps (events r)) <= (1 + max_redirects) * 3)%nat
  /\ sleeps (events r) = [1]
  /\ (length (prints (events r)) <= 1)%nat
  /\ configured (self_after r)
  /\ headers (self_after r) = headers self.
Proof.
  intros Hconf r. subst r.
  assert (Hdelay : delay self = 1) by apply Hconf.
  assert (Hbudget : forall u a,
             get_adapter (session self) u = Return a ->
             (total (max_retries a) <= 3)%nat).
  { intros u a. destruct Hconf as [Hads _]. rewrite (get_adapter_init _ _ Hads).
    destruct (startswith (lower u) "https://"); [intros [= <-]; simpl; lia|].
    destruct (startswith (lower u) "http://"); [intros [= <-]; simpl; lia|done]. }
  pose proof (Session_request_bound env wire (session self) 3 url params
                (Some (headers self)) None Hbudget) as (Hs & Hw).
  destruct (hit_and_get_data_sends env wire loads str url params self)
    as (Hsends & Hsleeps & Hwaits & _); [lia|].
  destruct (hit_and_get_data_events env wire loads str url params self)
    as (diagnostics & Hev & _ & _ & _ & Hprints); [lia|].
  pose proof (get_of_call_events env wire self url params) as (_ & Hp & _).
  destruct (hit_and_get_data_frame env wire loads str url params self) as (Hh & _).
  rewrite Hsends, Hwaits, Hsleeps, Hdelay.
  split; [exact Hs|]. split; [exact Hw|]. split; [reflexivity|].
  split; [|split; [by apply configured_after | exact Hh]].
  rewrite Hev. simpl. by rewrite prints_app, Hp.
Qed.

Lemma call_footprint_witness :
  let self := __init__ [] None in
  let r := hit_and_get_data Stub.env
             (Stub.moved "https://example.test/old" "https://example.test/new" "[1]")
             Stub.loads Stub.str "https://example.test/old" None self in
  (length (sends (events r)) <= (1 + max_redirects) * 4)%nat
  /\ (length (retry_sleeps (events r)) <= (1 + max_redirects) * 3)%nat
  /\ sleeps (events r) = [1]
  /\ (length (prints (events r)) <= 1)%nat
  /\ configured (self_after r)
  /\ headers (self_after r) = headers self.
Proof.
  apply (call_footprint Stub.env
           (Stub.moved "https://example.test/old" "https://example.test/new" "[1]")
           Stub.loads Stub.str (__init__ [] None) "https://example.test/old" None).
  split; reflexivity.
Defined.

(** X7.  A redirect is followed: when the first exchange of a call ends on
    an answer with a redirect target, the call goes on with a request for
    the joined URL, sent through the adapter of that URL with a retry budget
    of its own, or stops without further transmission when that URL has no
    adapter.  The headers of the new request are those of the first one
    rewritten by the library: after a redirect other than 307 and 308 it
    carries no [Content-Type], supplied at construction or not. *)
Theorem redirect_followed
    (env : Env) (wire : Request -> nat -> wire_result)
    (loads : string -> option json) (str : exn -> string)
    (self : CustomSession) (url : string) (params : option dict)
    (req0 : Request) (a : HTTPAdapter) (evs0 : list event) (resp : Response)
    (location url' : string) :
  0 <= delay self ->
  first_request env self url params = Return req0 ->
  get_adapter (session self) (req_url req0) = Return a ->
  HTTPAdapter_send env wire a 0 req0 = (evs0, Return resp) ->
  get_redirect_target env resp = Return (Some location) ->
  read_fault_of resp = None ->
  nonempty location = true ->
  join_location env (req_url req0) location = Some url' ->
  let j := extract_cookies_to_jar env (cookies (session self)) req0 resp in
  let req' := {| req_url := url';
                 req_headers := hop_headers env j (req_url req0) url' (status resp)
                                            (req_headers req0);
                 req_timeout := req_timeout req0 |} in
  let r := hit_and_get_data env wire loads str url params self in
  match get_adapter (session self) url' with
  | Raise _ => sends (events r) = sends evs0
  | Return a' =>
      exists rest,
        sends (events r)
        = sends evs0
          ++ sends (HTTPAdapter_send env wire a' (length (sends evs0)) req').1 ++ rest
  end
  /\ ((status resp ∉ [307; 308]) -> ci_get "Content-Type" (req_headers req') = None).
Proof.
  intros Hdelay Hprep Ha Hsend Ht Hread Hne Hjoin j req' r. subst r.
  split; [|by apply hop_headers_content_type].
  destruct (hit_and_get_data_sends env wire loads str url params self Hdelay)
    as (-> & _).
  pose proof (resolve_redirects_first_hop env wire (session self) 29 j j
                (length (sends evs0)) req0 resp location url' Ht Hread Hne Hjoin) as Hhop.
  cbv zeta in Hhop. fold req' in Hhop. rewrite <- max_redirects_eq in Hhop.
  unfold get_of_call, Session_get, Session_request.
  unfold first_request in Hprep. rewrite Hprep.
  unfold send_once. rewrite Ha, Hsend. simpl. fold j.
  destruct (get_adapter (session self) url') as [a'|e].
  - destruct Hhop as [rest Hrest].
    destruct (resolve_redirects _ _ _ _ _ _ _ _ _) as [[evs' o] j3]; simpl in *.
    exists (sends rest). by rewrite Hrest, !sends_app.
  - destruct (resolve_redirects _ _ _ _ _ _ _ _ _) as [[evs' o] j3]; simpl in *.
    injection Hhop as -> ->. by rewrite app_nil_r.
Qed.

Lemma redirect_followed_witness :
  let old := {| req_url := "https://example.test/old";
                req_headers := [("Content-Type", "application/json")];
                req_timeout := None |} in
  let new := {| req_url := "http://example.test/new"; req_headers := [];
                req_timeout := None |} in
  let server := Stub.moved "https://example.test/old" "http://example.test/new" "[1]" in
  let r := hit_and_get_data Stub.env server Stub.loads Stub.str
             "https://example.test/old" None
             (__init__ [] (Some [("Content-Type", "application/json")])) in
  (exists rest,
      sends (events r)
      = sends [EvSend old]
        ++ sends (HTTPAdapter_send Stub.env server default_adapter
                    (length (sends [EvSend old])) new).1 ++ rest)
  /\ ((302 ∉ [307; 308]) -> ci_get "Content-Type" (req_headers new) = None).
Proof.
  apply (redirect_followed Stub.env
           (Stub.moved "https://example.test/old" "http://example.test/new" "[1]")
           Stub.loads Stub.str
           (__init__ [] (Some [("Content-Type", "application/json")]))
           "https://example.test/old" None
           {| req_url := "https://example.test/old";
              req_headers := [("Content-Type", "application/json")];
              req_timeout := None |}
           {| max_retries := retries |}
           [EvSend {| req_url := "https://example.test/old";
                      req_headers := [("Content-Type", "application/json")];
                      req_timeout := None |}]
           (Stub.answer 302 [("Location", "http://example.test/new")] "")
           "http://example.test/new" "http://example.test/new").
  - simpl. lia.
  - reflexivity.
  - reflexivity.
  - reflexivity.
  - reflexivity.
  - reflexivity.
  - reflexivity.
  - reflexivity.
Defined.

(* ===================================================================== *)
(** ** Decoding failures that are no decoding errors; construction *)
(* ===================================================================== *)

(** X6.  When [json.loads] gives up on the body for another reason than a
    decoding error ([RecursionError] on a deeply nested document,
    [MemoryError]), the first handler does not apply: the call prints the
    connection message of the second handler, not the decoding message, and
    returns the empty mapping.  (Stated for a standard output that takes the
    message.) *)
Theorem json_fault_reported_as_connection_error
    (env : Env) (wire : Request -> nat -> wire_result)
    (loads : string -> option json) (str : exn -> string)
    (self : CustomSession) (url : string) (params : option dict)
    (response : Response) (f : json_fault) :
  0 <= delay self ->
  (get_of_call env wire self url params).2 = Return response ->
  loads_fault env (response_text env response) = Some f ->
  let err := Exn (json_fault_class f) (ArgsDoc (response_text env response)) in
  stdout_write env (connect_message str url err) = None ->
  let r := hit_and_get_data env wire loads str url params self in
  prints (events r) = [connect_message str url err]
  /\ connect_message str url err <> decode_message url
  /\ isinstance err JSONDecodeError = false
  /\ result r = Return empty_dict.
Proof.
  intros Hdelay Hget Hfault err Hout r. subst r err.
  pose proof (hit_and_get_data_outcome env wire loads str url params self Hdelay) as H.
  cbv zeta in H. rewrite Hget, Hfault, Hout in H. destruct H as [Hprints Hres].
  repeat split; try done. by destruct f.
Qed.

Lemma json_fault_reported_as_connection_error_witness :
  let r := hit_and_get_data Stub.env_shallow_stack (Stub.always 200 "[1]")
             Stub.loads Stub.str "http://example.test/data" None (__init__ [] None) in
  prints (events r)
  = ["Error in connecting to URL: http://example.test/data | Error: Connection failed"]
  /\ "Error in connecting to URL: http://example.test/data | Error: Connection failed"
     <> decode_message "http://example.test/data"
  /\ isinstance (Exn RecursionError (ArgsDoc "[1]")) JSONDecodeError = false
  /\ result r = Return empty_dict.
Proof.
  apply (json_fault_reported_as_connection_error Stub.env_shallow_stack
           (Stub.always 200 "[1]") Stub.loads Stub.str (__init__ [] None)
           "http://example.test/data" None (Stub.answer 200 [] "[1]") TooDeep).
  - simpl. lia.
  - vm_compute. reflexivity.
  - reflexivity.
  - reflexivity.
Defined.

(** X8.  What [__init__] builds: the supplied headers are stored as they
    are, [None] and the empty dict both as the empty dict; the delay is one
    second; the attribute [timeout] of the session is 30; the session keeps
    the default headers of the library and starts without cookies; the
    adapter with the retry policy is mounted on [https://] and looked up
    first, and the default adapter that [requests.session()] mounted on
    [http://] stays in place. *)
Theorem init_configuration (default_headers : dict) (hs : option dict) :
  let self := __init__ default_headers hs in
  headers self = default [] hs
  /\ delay self = 1
  /\ timeout (session self) = Some 30
  /\ s_headers (session self) = ci_update [] default_headers
  /\ cookies (session self) = []
  /\ adapters (session self)
     = [("https://", {| max_retries := retries |}); ("http://", default_adapter)]
  /\ max_retries default_adapter
     = {| total := 0; read_retry := false; backoff_factor := 0; status_forcelist := [] |}
  /\ configured self.
Proof.
  intros self. subst self. repeat split.
  simpl. unfold headers_or_empty. destruct hs as [h|]; simpl; [|reflexivity].
  by destruct (decide (h = [])) as [->|].
Qed.
